(** * Tesseract-Node: a shallow embedding of [tesseract_node3.py]

    The server keeps a mutable 4-D position ([Spacetime4D]), a dictionary
    keyed by position tuples ([HyperMemory]) and a pass-through to a circuit
    simulator ([QuantumCore]); six Flask routes read and update them.

    Python values are modelled as Python has them: [int] is an unbounded
    integer ([Z]), [float] is an IEEE 754 binary64 number (the Standard
    Library's executable [spec_float] at precision 53 and maximal exponent
    1024, rounding to nearest even), and arithmetic between the two converts
    the [int] operand first, raising [OverflowError] when it does not fit.
    Statements that can raise run in a state-and-exception monad [Py]: an
    exception aborts the handler but keeps the mutations done so far.
    A JSON response is written by [jsonify], which raises [ValueError] on an
    int of more than 4300 digits (Python's limit on int to [str]).  The
    background drift thread is followed round by round, each round taken
    between two requests. *)

From Stdlib Require Import ZArith List String Ascii Bool Lia.
From Stdlib Require Import Floats.SpecFloat.
Import ListNotations.

Local Open Scope string_scope.
Local Open Scope Z_scope.

(** ** Exceptions and the [Py] monad *)

Inductive exn : Set :=
| ValueError
| TypeError
| OverflowError
| IndexError
| CircuitError.

Inductive result (A : Type) : Type :=
| Ok (a : A)
| Raise (e : exn).

Arguments Ok {A} a.
Arguments Raise {A} e.

Definition Py (S A : Type) : Type := S -> result A * S.

Definition ret {S A : Type} (a : A) : Py S A := fun s => (Ok a, s).

Definition raise {S A : Type} (e : exn) : Py S A := fun s => (Raise e, s).

Definition bind {S A B : Type} (m : Py S A) (k : A -> Py S B) : Py S B :=
  fun s =>
    match m s with
    | (Ok a, s') => k a s'
    | (Raise e, s') => (Raise e, s')
    end.

Definition get {S : Type} : Py S S := fun s => (Ok s, s).

Definition put {S : Type} (s' : S) : Py S unit := fun _ => (Ok tt, s').

(** A pure computation that may raise, run inside [Py]. *)
Definition lift {S A : Type} (r : result A) : Py S A := fun s => (r, s).

Declare Scope py_scope.
Delimit Scope py_scope with py.
Notation "x <- m ;; k" := (bind m (fun x => k))
  (at level 61, m at next level, right associativity) : py_scope.
Notation "m ;;; k" := (bind m (fun _ => k))
  (at level 61, right associativity) : py_scope.
Local Open Scope py_scope.

(** ** Python numbers *)

Module PyNum.

Definition prec : Z := 53.
Definition emax : Z := 1024.

Definition float : Set := spec_float.

Definition fadd : float -> float -> float := SFadd prec emax.
Definition fmul : float -> float -> float := SFmul prec emax.

Definition pzero : float := S754_zero false.
Definition nzero : float := S754_zero true.

(** [float(n)] for an [int] [n]: correctly rounded, [OverflowError] when the
    rounded value is not finite. *)
Definition float_of_int (n : Z) : result float :=
  match binary_normalize prec emax n 0 false with
  | S754_infinity _ => Raise OverflowError
  | f => Ok f
  end.

Inductive num : Set :=
| PyInt (n : Z)
| PyFloat (f : float).

(** [a + b] *)
Definition add (a b : num) : result num :=
  match a, b with
  | PyInt m, PyInt n => Ok (PyInt (m + n))
  | PyFloat f, PyFloat g => Ok (PyFloat (fadd f g))
  | PyInt m, PyFloat g =>
      match float_of_int m with
      | Ok f => Ok (PyFloat (fadd f g))
      | Raise e => Raise e
      end
  | PyFloat f, PyInt n =>
      match float_of_int n with
      | Ok g => Ok (PyFloat (fadd f g))
      | Raise e => Raise e
      end
  end.

(** [a * b] *)
Definition mul (a b : num) : result num :=
  match a, b with
  | PyInt m, PyInt n => Ok (PyInt (m * n))
  | PyFloat f, PyFloat g => Ok (PyFloat (fmul f g))
  | PyInt m, PyFloat g =>
      match float_of_int m with
      | Ok f => Ok (PyFloat (fmul f g))
      | Raise e => Raise e
      end
  | PyFloat f, PyInt n =>
      match float_of_int n with
      | Ok g => Ok (PyFloat (fmul f g))
      | Raise e => Raise e
      end
  end.

(** The exact comparison [n == f] of an [int] with a [float]. *)
Definition int_eqb_float (n : Z) (f : float) : bool :=
  match f with
  | S754_zero _ => n =? 0
  | S754_finite s m e =>
      let v := cond_Zopp s (Zpos m) in
      if 0 <=? e then n =? v * 2 ^ e else n * 2 ^ (- e) =? v
  | _ => false
  end.

(** [a == b] on numbers: by value across the two types, [-0.0 == 0.0], and
    a NaN equals nothing. *)
Definition eqb (a b : num) : bool :=
  match a, b with
  | PyInt m, PyInt n => m =? n
  | PyFloat f, PyFloat g => SFeqb f g
  | PyInt m, PyFloat g => int_eqb_float m g
  | PyFloat f, PyInt n => int_eqb_float n f
  end.

(** A number is the float negative zero. *)
Definition is_nzero (a : num) : bool :=
  match a with
  | PyFloat (S754_zero true) => true
  | _ => false
  end.

(** Same type and same value: identical, or two float zeros (which Python
    compares equal).  Unlike [==] it holds of a NaN and itself. *)
Definition same_value (a b : num) : Prop :=
  a = b \/ exists s s', a = PyFloat (S754_zero s) /\ b = PyFloat (S754_zero s').

(** The operand of [a + b] can be used with a float: it is a float, or an
    int that [float()] converts. *)
Definition fits_float (a : num) : Prop :=
  match a with
  | PyInt n => exists f, float_of_int n = Ok f
  | PyFloat _ => True
  end.

(** A finite float whose exponent is not below the smallest one of the
    format; every valid binary64 number is. *)
Definition lower_bounded (f : float) : Prop :=
  match f with
  | S754_finite _ _ e => emin prec emax <= e
  | _ => True
  end.

(** The outcome of rounding a non-zero number: finite or infinite with the
    given sign, never a zero. *)
Definition nonzero_result (s : bool) (f : float) : Prop :=
  (exists m e, f = S754_finite s m e /\ emin prec emax <= e)
  \/ f = S754_infinity s.

(** A number a caller can pass: an int, or a float that is a binary64
    number. *)
Definition valid_arg (a : num) : Prop :=
  match a with
  | PyInt _ => True
  | PyFloat f => valid_binary prec emax f = true
  end.

(** What every stored field is: an int, or a float that is not the
    negative zero. *)
Definition good (a : num) : Prop :=
  match a with
  | PyInt _ => True
  | PyFloat f => lower_bounded f /\ f <> nzero
  end.

(** [(v + a) + c] and [v + (a + c)] for floats [a] and [c]. *)
Definition add3_left (v : num) (a c : float) : result num :=
  match add v (PyFloat a) with
  | Ok v1 => add v1 (PyFloat c)
  | Raise e => Raise e
  end.

Definition add3_right (v : num) (a c : float) : result num :=
  add v (PyFloat (fadd a c)).

End PyNum.

Import PyNum.

(** ** [class Spacetime4D] *)

Module Spacetime4D.

(** [self.c], assigned once in [__init__] and never written again. *)
Definition c : Z := 299792458.

(** The four mutable fields [self.t], [self.x], [self.y], [self.z]. *)
Record state : Set := mk { t : num; x : num; y : num; z : num }.

(** The tuple [move] returns. *)
Definition coord : Set := (num * num * num * num)%type.

(** [Spacetime4D()] *)
Definition init : state :=
  {| t := PyInt 0; x := PyInt 0; y := PyInt 0; z := PyInt 0 |}.

Definition set_t (v : num) (s : state) : state :=
  {| t := v; x := x s; y := y s; z := z s |}.
Definition set_x (v : num) (s : state) : state :=
  {| t := t s; x := v; y := y s; z := z s |}.
Definition set_y (v : num) (s : state) : state :=
  {| t := t s; x := x s; y := v; z := z s |}.
Definition set_z (v : num) (s : state) : state :=
  {| t := t s; x := x s; y := y s; z := v |}.

(** [self.f += d] for the field read by [rd] and written by [wr]. *)
Definition iadd (rd : state -> num) (wr : num -> state -> state) (d : num)
  : Py state unit :=
  self <- get ;;
  v <- lift (PyNum.add (rd self) d) ;;
  put (wr v self).

(** [def move(self, dt, dx, dy, dz)] *)
Definition move (dt dx dy dz : num) : Py state coord :=
  iadd t set_t dt ;;;
  iadd x set_x dx ;;;
  iadd y set_y dy ;;;
  iadd z set_z dz ;;;
  self <- get ;;
  ct <- lift (PyNum.mul (PyInt c) (t self)) ;;
  ret (ct, x self, y self, z self).

(** The states a [Spacetime4D] takes: created by [__init__] and changed
    only by [move], called with ints or floats, whether the call returns
    or raises half-way. *)
Inductive reachable : state -> Prop :=
| reach_init : reachable init
| reach_move (s : state) (dt dx dy dz : num) :
    reachable s ->
    valid_arg dt -> valid_arg dx -> valid_arg dy -> valid_arg dz ->
    reachable (snd (move dt dx dy dz s)).

End Spacetime4D.

(** ** [class HyperMemory] *)

Module HyperMemory.

Definition key : Set := Spacetime4D.coord.

(** [self.data]: a dict from position tuples to the stored integers, kept
    as the list of its items in insertion order. *)
Definition state : Set := list (key * Z).

(** Tuple equality [k1 == k2], component by component.  Python tries object
    identity before [==]; the two differ only on a NaN (identical to itself,
    equal to nothing), and identity is not modelled: the dictionary below is
    exact whenever the key stored or looked up holds no NaN, which is the
    hypothesis [nan_free] of the statements about it. *)
Definition key_eqb (k1 k2 : key) : bool :=
  let '(a1, b1, c1, d1) := k1 in
  let '(a2, b2, c2, d2) := k2 in
  PyNum.eqb a1 a2 && PyNum.eqb b1 b2 && PyNum.eqb c1 c2 && PyNum.eqb d1 d2.

(** [d[k] = v] for a key [k] without NaN: an equal key keeps its place and
    takes the new value, a new key goes last. *)
Fixpoint dict_set (k : key) (v : Z) (d : state) : state :=
  match d with
  | [] => [(k, v)]
  | (k', v') :: d' =>
      if key_eqb k' k then (k', v) :: d' else (k', v') :: dict_set k v d'
  end.

(** [d.get(k, None)] for a key [k] without NaN. *)
Fixpoint dict_get (k : key) (d : state) : option Z :=
  match d with
  | [] => None
  | (k', v') :: d' => if key_eqb k' k then Some v' else dict_get k d'
  end.

(** [HyperMemory()] *)
Definition init : state := [].

(** [def store(self, coord, value)] *)
Definition store (coord : key) (value : Z) : Py state unit :=
  self <- get ;;
  put (dict_set coord value self).

(** [def retrieve(self, coord)] *)
Definition retrieve (coord : key) : Py state (option Z) :=
  self <- get ;;
  ret (dict_get coord self).

End HyperMemory.

(** ** Loops *)

(** [for i in l: body(i)] *)
Fixpoint for_each {S : Type} (l : list nat) (body : nat -> Py S unit) : Py S unit :=
  match l with
  | [] => ret tt
  | i :: l' => body i ;;; for_each l' body
  end.

(** [range(n)] *)
Definition range (n : nat) : list nat := seq 0 n.

(** ** The circuit library: [QuantumCircuit] and the simulator

    Qiskit is not part of the repository.  What the server relies on is
    modelled here from Qiskit's documented behaviour:
    - [QuantumCircuit(n, m)] has [n] qubits and one classical register ["c"]
      of [m] bits;
    - a gate method appends an instruction and raises [CircuitError] on a
      qubit index out of range or on a repeated qubit;
    - [id] takes the qubit as a required argument, so a call without it
      raises [TypeError];
    - [measure(qubits, clbits)] measures qubit by qubit into the given bits;
    - [measure_all()] adds a NEW classical register ["meas"] with one bit per
      qubit, a barrier, and measures every qubit into the new register;
    - the counts of a one-shot run have one key: the classical bits, highest
      bit first, one group per classical register (last register first)
      separated by a space.
    The state vector is not modelled: a run takes the bit the simulator
    sampled for each qubit as its input [shot], so a statement for every
    [shot] covers every measurement outcome. *)

Module QuantumCircuit.

Inductive instruction : Set :=
| H (q : nat)
| X (q : nat)
| I (q : nat)
| CX (ctl tgt : nat)
| CZ (ctl tgt : nat)
| MCX (ctls : list nat) (tgt : nat)
| Barrier
| Measure (q : nat) (clbit : nat).

Record circuit : Set := mk {
  num_qubits : nat;
  cregs : list (string * nat);
  data : list instruction
}.

Definition num_clbits (qc : circuit) : nat :=
  fold_right (fun r acc => (snd r + acc)%nat) 0%nat (cregs qc).

(** [QuantumCircuit(n, m)] *)
Definition new (n m : nat) : circuit :=
  {| num_qubits := n; cregs := [("c", m)]; data := [] |}.

Fixpoint distinct (l : list nat) : bool :=
  match l with
  | [] => true
  | q :: l' => negb (existsb (Nat.eqb q) l') && distinct l'
  end.

Definition append (ins : instruction) (qubits : list nat) : Py circuit unit :=
  qc <- get ;;
  if forallb (fun q => (q <? num_qubits qc)%nat) qubits && distinct qubits
  then put {| num_qubits := num_qubits qc; cregs := cregs qc;
              data := data qc ++ [ins] |}
  else raise CircuitError.

Definition h (q : nat) : Py circuit unit := append (H q) [q].
Definition x (q : nat) : Py circuit unit := append (X q) [q].
Definition cx (ctl tgt : nat) : Py circuit unit := append (CX ctl tgt) [ctl; tgt].
Definition cz (ctl tgt : nat) : Py circuit unit := append (CZ ctl tgt) [ctl; tgt].
Definition mcx (ctls : list nat) (tgt : nat) : Py circuit unit :=
  append (MCX ctls tgt) (ctls ++ [tgt]).

(** [id(qubit)]; [None] is a call that leaves the argument out. *)
Definition id (qubit : option nat) : Py circuit unit :=
  match qubit with
  | Some q => append (I q) [q]
  | None => raise TypeError
  end.

Definition measure1 (q clbit : nat) : Py circuit unit :=
  qc <- get ;;
  if (clbit <? num_clbits qc)%nat then append (Measure q clbit) [q]
  else raise CircuitError.

(** [measure(qubits, clbits)] with two index lists. *)
Fixpoint measure (qubits clbits : list nat) : Py circuit unit :=
  match qubits, clbits with
  | [], [] => ret tt
  | q :: qs, b :: bs => measure1 q b ;;; measure qs bs
  | _, _ => raise CircuitError
  end.

(** [measure_all()] with its default [add_bits=True]. *)
Definition measure_all : Py circuit unit :=
  qc <- get ;;
  let n := num_qubits qc in
  let base := num_clbits qc in
  put {| num_qubits := n; cregs := cregs qc ++ [("meas", n)];
         data := data qc ++ [Barrier] |} ;;;
  measure (range n) (map (fun i => (base + i)%nat) (range n)).

End QuantumCircuit.

Module AerSimulator.

Import QuantumCircuit.

(** The bit sampled for each qubit in the single shot. *)
Definition shot : Set := nat -> bool.

Fixpoint set_bit (i : nat) (b : bool) (mem : list bool) : list bool :=
  match mem, i with
  | [], _ => []
  | _ :: mem', O => b :: mem'
  | b' :: mem', S i' => b' :: set_bit i' b mem'
  end.

(** The classical memory after the shot, bit 0 first. *)
Definition run_shot (qc : circuit) (o : shot) : list bool :=
  fold_left
    (fun mem ins =>
       match ins with
       | Measure q clbit => set_bit clbit (o q) mem
       | _ => mem
       end)
    (data qc) (repeat false (num_clbits qc)).

Definition bit_char (b : bool) : ascii := if b then "1"%char else "0"%char.

(** The memory as a bitstring, highest bit first. *)
Definition bitstring (mem : list bool) : list ascii := map bit_char (rev mem).

(** Cut the bitstring into one group per register, last register first,
    and join the groups with a space. *)
Fixpoint separate (bits : list ascii) (sizes : list nat) : list ascii :=
  match sizes with
  | [] => []
  | [n] => firstn n bits
  | n :: sizes' => firstn n bits ++ " "%char :: separate (skipn n bits) sizes'
  end.

(** A counts dict, as its items. *)
Definition counts : Set := list (string * nat).

(** [backend.run(transpile(qc, backend), shots=1).result().get_counts()] for
    a circuit the backend accepts.  The real backend refuses circuits wider
    than its (machine dependent) qubit limit; that limit is not modelled, so
    this is used at the widths the server asks for (2 and 4 qubits), and in
    the statements below at no more than 4 qubits. *)
Definition get_counts (qc : circuit) (o : shot) : counts :=
  [(string_of_list_ascii
      (separate (bitstring (run_shot qc o)) (rev (map snd (cregs qc)))), 1%nat)].

End AerSimulator.

(** ** [class QuantumCore] *)

Module QuantumCore.

Import QuantumCircuit AerSimulator.

(** Run the statements [build] on the circuit [qc], then [k] on the circuit
    they leave. *)
Definition with_circuit {A : Type} (qc : circuit) (build : Py circuit unit)
    (k : circuit -> result A) : result A :=
  match build qc with
  | (Ok _, qc') => k qc'
  | (Raise e, _) => Raise e
  end.

(** [list(counts.keys())[0]] *)
Definition first_key (cnt : counts) : result string :=
  match cnt with
  | (k, _) :: _ => Ok k
  | [] => Raise IndexError
  end.

(** [def create_entangled_pair(self)] *)
Definition create_entangled_pair (o : shot) : result string :=
  with_circuit (new 2 2)
    (h 0 ;;;
     cx 0 1 ;;;
     measure [0; 1] [0; 1])%nat
    (fun qc => first_key (get_counts qc o)).

(** [def ghz_state(self, n=4)].  ([n - 1] is a natural-number subtraction:
    for [n = 0] the first gate already raises.) *)
Definition ghz_state (n : nat) (o : shot) : result counts :=
  with_circuit (new n n)
    (h 0 ;;;
     for_each (range (n - 1)) (fun i => cx i (i + 1)) ;;;
     measure_all)%nat
    (fun qc => Ok (get_counts qc o)).

(** [def grover_search(self, n_qubits=2, target='11')].  The oracle line is
    [qc.cz(0, 1) if target == '11' else qc.id()]: its second branch calls
    [id] without the qubit. *)
Definition grover_search (n_qubits : nat) (target : string) (o : shot)
  : result string :=
  with_circuit (new n_qubits n_qubits)
    (for_each (range n_qubits) h ;;;
     (if String.eqb target "11" then cz 0 1 else id None) ;;;
     for_each (range n_qubits) (fun i => h i ;;; x i) ;;;
     h (n_qubits - 1) ;;;
     mcx (range (n_qubits - 1)) (n_qubits - 1) ;;;
     h (n_qubits - 1) ;;;
     for_each (range n_qubits) (fun i => x i ;;; h i) ;;;
     measure (range n_qubits) (range n_qubits))%nat
    (fun qc => first_key (get_counts qc o)).

End QuantumCore.

(** ** JSON values and HTTP responses *)

Local Unset Elimination Schemes.

Inductive json : Set :=
| JNull
| JBool (b : bool)
| JNum (n : num)
| JStr (s : string)
| JArr (items : list json)
| JObj (fields : list (string * json)).

Local Set Elimination Schemes.

Inductive response : Set :=
| Html (body : string)
| Json (j : json).

(** The value of field [k] of a JSON object. *)
Definition json_field (k : string) (j : json) : option json :=
  match j with
  | JObj fields =>
      match find (fun kv => String.eqb (fst kv) k) fields with
      | Some kv => Some (snd kv)
      | None => None
      end
  | _ => None
  end.

(** A position tuple, serialised as a JSON array. *)
Definition json_of_coord (pos : Spacetime4D.coord) : json :=
  let '(a, b, c, d) := pos in JArr [JNum a; JNum b; JNum c; JNum d].

(** [None] or an integer. *)
Definition json_of_found (found : option Z) : json :=
  match found with
  | Some v => JNum (PyInt v)
  | None => JNull
  end.

(** [sys.get_int_max_str_digits()]: the longest int, in decimal digits, that
    Python converts to a string. *)
Definition max_str_digits : Z := 4300.

(** [str(n)] has a value: [n] has at most [max_str_digits] digits. *)
Definition int_str_ok (n : Z) : bool := Z.abs n <? 10 ^ max_str_digits.

Arguments int_str_ok : simpl never.

(** A number the JSON encoder writes: any float, an int that [str] converts. *)
Definition num_json_ok (a : num) : bool :=
  match a with
  | PyInt n => int_str_ok n
  | PyFloat _ => true
  end.

(** Every number inside a JSON value can be written. *)
Fixpoint json_ok (j : json) : bool :=
  match j with
  | JNum a => num_json_ok a
  | JArr items =>
      (fix all (l : list json) : bool :=
         match l with
         | [] => true
         | i :: l' => json_ok i && all l'
         end) items
  | JObj fields =>
      (fix all (l : list (string * json)) : bool :=
         match l with
         | [] => true
         | (_, i) :: l' => json_ok i && all l'
         end) fields
  | _ => true
  end.

(** [jsonify(obj)]: the JSON response, or the [ValueError] of [str] on an int
    that is too long. *)
Definition jsonify (obj : json) : result response :=
  if json_ok obj then Ok (Json obj) else Raise ValueError.

(** [str(pos)] inside a [print]: [ValueError] on an int that is too long. *)
Definition print_coord (pos : Spacetime4D.coord) : result unit :=
  if json_ok (json_of_coord pos) then Ok tt else Raise ValueError.

(** A string is made of the characters ['0'] and ['1'] only. *)
Definition is_binary (s : string) : bool :=
  forallb (fun ch => Ascii.eqb ch "0" || Ascii.eqb ch "1") (list_ascii_of_string s).

(** [int(s, 2)] on the strings a counts key can be: digits ['0'] and ['1'],
    with spaces between register groups.  A key of binary digits is read as
    a number; a space inside raises [ValueError]. *)
Definition int_base2 (s : string) : result Z :=
  if is_binary s && negb (String.eqb s "")
  then Ok (fold_left (fun acc ch => 2 * acc + (if Ascii.eqb ch "1" then 1 else 0))
             (list_ascii_of_string s) 0)
  else Raise ValueError.

(** ** The global instances and the routes *)

(** [spacetime] and [memory]; [quantum] holds no state of its own. *)
Record Server : Set := mkServer {
  spacetime : Spacetime4D.state;
  memory : HyperMemory.state
}.

Definition on_spacetime {A : Type} (m : Py Spacetime4D.state A) : Py Server A :=
  fun s =>
    let '(r, sp) := m (spacetime s) in
    (r, {| spacetime := sp; memory := memory s |}).

Definition on_memory {A : Type} (m : Py HyperMemory.state A) : Py Server A :=
  fun s =>
    let '(r, mem) := m (memory s) in
    (r, {| spacetime := spacetime s; memory := mem |}).

(** The instances as created, before the seeding loop. *)
Definition boot : Server :=
  {| spacetime := Spacetime4D.init; memory := HyperMemory.init |}.

(** The seeding loop; [randint i] is the [i]-th draw [np.random.randint(0, 100)]. *)
Definition seed (randint : nat -> Z) : Py Server unit :=
  for_each (range 4)
    (fun i =>
       pos <- on_spacetime
                (Spacetime4D.move (PyInt 0) (PyInt (Z.of_nat i)) (PyInt 0) (PyInt 0)) ;;
       on_memory (HyperMemory.store pos (randint i))).

(** The server state once the module is loaded. *)
Definition startup (randint : nat -> Z) : result unit * Server := seed randint boot.

(** [request.args]: the query parameters in the order received. *)
Definition query : Set := list (string * string).

(** [request.args.get(key)]: the first value of [key], if any. *)
Fixpoint args_get (key : string) (args : query) : option string :=
  match args with
  | [] => None
  | (k, v) :: args' => if String.eqb k key then Some v else args_get key args'
  end.

Inductive route : Set := Home | Status | Entangle | Ghz | Move | Grover.

(** One request with everything its handler reads from outside: the query
    parameters, the clock ([datetime.now().isoformat()]) and the bits the
    simulator samples. *)
Record request : Set := mkRequest {
  path : route;
  args : query;
  now : string;
  sim : AerSimulator.shot
}.

Definition dq : string := String (ascii_of_nat 34) EmptyString.
Definition nl : string := String (ascii_of_nat 10) EmptyString.

Definition home_page : string :=
  nl ++ "    <h1>TESSERACT-NODE v1.0</h1>" ++ nl ++
  "    <p><b>4D Offline Quantum Server</b> — <span style=" ++ dq ++ "color:lime" ++ dq ++
  ">ONLINE</span></p>" ++ nl ++
  "    <ul>" ++ nl ++
  "        <li><a href=" ++ dq ++ "/status" ++ dq ++ ">/status</a></li>" ++ nl ++
  "        <li><a href=" ++ dq ++ "/entangle" ++ dq ++ ">/entangle</a></li>" ++ nl ++
  "        <li><a href=" ++ dq ++ "/ghz" ++ dq ++ ">/ghz</a></li>" ++ nl ++
  "        <li><a href=" ++ dq ++ "/move?dt=1&dx=10" ++ dq ++ ">/move</a></li>" ++ nl ++
  "        <li><a href=" ++ dq ++ "/grover?target=11" ++ dq ++ ">/grover</a></li>" ++ nl ++
  "    </ul>" ++ nl ++ "    ".

Section Routes.

(** Python's [float(s)] on a string: [None] is a [ValueError].  The parser
    is a builtin, not code of the server. *)
Variable float_of_str : string -> option float.

(** [float(request.args.get(key, 0))] *)
Definition float_arg (key : string) (a : query) : result float :=
  match args_get key a with
  | Some s =>
      match float_of_str s with
      | Some f => Ok f
      | None => Raise ValueError
      end
  | None => float_of_int 0
  end.

(** [@app.route('/')] *)
Definition home : Py Server response := ret (Html home_page).

(** [@app.route('/status')] *)
Definition status (clock : string) : Py Server response :=
  pos <- on_spacetime
           (Spacetime4D.move (PyInt 0) (PyInt 0) (PyInt 0) (PyInt 0)) ;;
  lift (jsonify (JObj [("node", JStr "Tesseract-Node Ω");
                       ("status", JStr "4D OPERATIONAL");
                       ("time", JStr clock);
                       ("position", json_of_coord pos);
                       ("qubits", JNum (PyInt 16));
                       ("offline", JBool true)])).

(** [@app.route('/entangle')] *)
Definition entangle (o : AerSimulator.shot) : Py Server response :=
  result <- lift (QuantumCore.create_entangled_pair o) ;;
  lift (jsonify (JObj [("bell_pair", JStr result);
                       ("entanglement", JStr "ACHIEVED")])).

(** [@app.route('/ghz')] *)
Definition ghz (o : AerSimulator.shot) : Py Server response :=
  result <- lift (QuantumCore.ghz_state 4 o) ;;
  k <- lift (QuantumCore.first_key result) ;;
  lift (jsonify (JObj [("ghz_state", JStr k);
                       ("qubits", JNum (PyInt 4))])).

(** The rest of the [/move] handler once [dt] and [dx] are parsed. *)
Definition move_with (dt dx : float) : Py Server response :=
  pos <- on_spacetime
           (Spacetime4D.move (PyFloat dt) (PyFloat dx) (PyInt 0) (PyInt 0)) ;;
  lift (jsonify (JObj [("new_position", json_of_coord pos)])).

(** [@app.route('/move')] *)
Definition move (a : query) : Py Server response :=
  dt <- lift (float_arg "dt" a) ;;
  dx <- lift (float_arg "dx" a) ;;
  move_with dt dx.

(** [@app.route('/grover')] *)
Definition grover (a : query) (o : AerSimulator.shot) : Py Server response :=
  let target := match args_get "target" a with Some s => s | None => "11" end in
  result <- lift (QuantumCore.grover_search 2 target o) ;;
  index <- lift (int_base2 result) ;;
  let pos := (PyInt 0, PyInt 0, PyInt 0, PyInt 0) in
  found <- on_memory (HyperMemory.retrieve pos) ;;
  lift (jsonify (JObj [("found_item", json_of_found found);
                       ("at_binary_index", JStr result);
                       ("quantum_speedup", JStr "ACHIEVED")])).

(** Flask's dispatch of a request to its handler. *)
Definition handle (r : request) : Py Server response :=
  match path r with
  | Home => home
  | Status => status (now r)
  | Entangle => entangle (sim r)
  | Ghz => ghz (sim r)
  | Move => move (args r)
  | Grover => grover (args r) (sim r)
  end.

End Routes.

(** One round of the background [drift] loop after its [sleep]; [r1], [r2],
    [r3] are the three [np.random.randn()] draws, and the second [move] is
    the one inside the [print].  The thread runs beside the handlers; a
    round is taken as one step, between two requests. *)
Definition drift_round (r1 r2 r3 : float) : Py Server unit :=
  on_spacetime
    (Spacetime4D.move (PyInt 1) (PyFloat r1) (PyFloat r2) (PyFloat r3)) ;;;
  pos <- on_spacetime
           (Spacetime4D.move (PyInt 0) (PyInt 0) (PyInt 0) (PyInt 0)) ;;
  lift (print_coord pos).

(** The server states the program reaches: the state after startup, the
    state any handler leaves and the state any drift round leaves (also
    when they raise).  The draws of a drift round are binary64 numbers.
    The relation does not record that the drift thread ends with the first
    round that raises, so it holds of every state of the program and of
    some it never reaches; [running] below is exact on that point. *)
Inductive served (float_of_str : string -> option float) (randint : nat -> Z)
  : Server -> Prop :=
| served_startup : served float_of_str randint (snd (startup randint))
| served_request (r : request) (srv : Server) :
    served float_of_str randint srv ->
    served float_of_str randint (snd (handle float_of_str r srv))
| served_drift (r1 r2 r3 : float) (srv : Server) :
    valid_binary prec emax r1 = true ->
    valid_binary prec emax r2 = true ->
    valid_binary prec emax r3 = true ->
    served float_of_str randint srv ->
    served float_of_str randint (snd (drift_round r1 r2 r3 srv)).

(** The same states with the drift thread followed: [running b srv] holds
    when the program reaches [srv] with the thread alive ([b = true]) or
    ended by an exception ([b = false]); only a live thread runs a round. *)
Inductive running (float_of_str : string -> option float) (randint : nat -> Z)
  : bool -> Server -> Prop :=
| running_startup : running float_of_str randint true (snd (startup randint))
| running_request (b : bool) (r : request) (srv : Server) :
    running float_of_str randint b srv ->
    running float_of_str randint b (snd (handle float_of_str r srv))
| running_drift (r1 r2 r3 : float) (srv : Server) :
    valid_binary prec emax r1 = true ->
    valid_binary prec emax r2 = true ->
    valid_binary prec emax r3 = true ->
    running float_of_str randint true srv ->
    running float_of_str randint
      (match fst (drift_round r1 r2 r3 srv) with Ok _ => true | Raise _ => false end)
      (snd (drift_round r1 r2 r3 srv)).

(** Two requests in turn, [/move] with parameters [(a, b)] and then [/move]
    with [(c, d)]: the second is handled whatever the first answered; the
    result is the second response and the state it leaves. *)
Definition two_moves (a b c d : float) : Py Server response :=
  fun srv => move_with c d (snd (move_with a b srv)).

(** [/move] once, with the parameters [(a + c, b + d)]. *)
Definition one_move (a b c d : float) : Py Server response :=
  move_with (fadd a c) (fadd b d).

(** A handler leaves [memory] as it found it. *)
Definition preserves_memory {A : Type} (m : Py Server A) : Prop :=
  forall srv, memory (snd (m srv)) = memory srv.

(** The float [0.1] and the coordinate [(0, 0, 0, 0)]. *)
Definition tenth : float := S754_finite false 7205759403792794 (-56).

Definition origin : Spacetime4D.coord := (PyInt 0, PyInt 0, PyInt 0, PyInt 0).

(** The float [1.0]. *)
Definition one : float := S754_finite false 4503599627370496 (-52).

(** A stand-in for [float(s)] on the literals used in the runs below. *)
Definition float_of_str_sample (s : string) : option float :=
  if String.eqb s "0.1" then Some tenth
  else if String.eqb s "1" then Some one
  else None.

(** The position after [move(0.1, 0.1, 0, 0)] on a new [Spacetime4D]. *)
Definition sample_position : Spacetime4D.state :=
  snd (Spacetime4D.move (PyFloat tenth) (PyFloat tenth) (PyInt 0) (PyInt 0)
         Spacetime4D.init).

(** The server after a startup in which every draw is [42]. *)
Definition sample_server : Server := snd (startup (fun _ => 42)).

(** [float(a)] on a number. *)
Definition as_float (a : num) : result float :=
  match a with
  | PyInt n => float_of_int n
  | PyFloat f => Ok f
  end.

(** A number is the float NaN, the one number that is not [==] to itself. *)
Definition is_nan (a : num) : bool :=
  match a with
  | PyFloat S754_nan => true
  | _ => false
  end.

(** No component of a key is NaN. *)
Definition nan_free (k : HyperMemory.key) : Prop :=
  let '(a, b, c, d) := k in
  is_nan a = false /\ is_nan b = false /\ is_nan c = false /\ is_nan d = false.

(** A key made of four ints, as every key the server stores or looks up. *)
Definition int_key (a b c d : Z) : HyperMemory.key :=
  (PyInt a, PyInt b, PyInt c, PyInt d).

(** A field that is the int [n] or some float. *)
Definition int_or_float (n : Z) (a : num) : Prop :=
  a = PyInt n \/ exists f, a = PyFloat f.

(** A field that is a non-negative int or some float. *)
Definition count_or_float (a : num) : Prop :=
  (exists n, 0 <= n /\ a = PyInt n) \/ exists f, a = PyFloat f.

(** The position as the program can leave it, field by field: [t] is an int
    that counts drift rounds or a float, [x] is the int [6] or a float, [y]
    and [z] are the int [0] or a float. *)
Definition program_shape (sp : Spacetime4D.state) : Prop :=
  count_or_float (Spacetime4D.t sp)
  /\ int_or_float 6 (Spacetime4D.x sp)
  /\ int_or_float 0 (Spacetime4D.y sp)
  /\ int_or_float 0 (Spacetime4D.z sp).

(** An int of 5001 digits, more than [str] converts. *)
Definition long_int : Z := 10 ^ 5000.

(** A server whose [t] is that int, and one whose [y] is, as after
    [spacetime.move(0, 0, long_int, 0)]. *)
Definition long_t_server : Server :=
  mkServer (Spacetime4D.mk (PyInt long_int) (PyInt 6) (PyInt 0) (PyInt 0)) [].

Definition long_y_server : Server :=
  mkServer (Spacetime4D.mk (PyInt 0) (PyInt 6) (PyInt long_int) (PyInt 0)) [].

(** The server after startup and one drift round with the draws
    [0.1], [1.0], [0.1]. *)
Definition drifted_server : Server :=
  snd (drift_round tenth one tenth sample_server).

(** A server whose [x] is an int too large for a float. *)
Definition huge_x_server : Server :=
  mkServer (Spacetime4D.mk (PyInt 0) (PyInt (2 ^ 1024)) (PyInt 0) (PyInt 0)) [].

(** The request [/move?dx=0.1], and the server after it is handled right
    after startup. *)
Definition sample_move : request :=
  mkRequest Move [("dx", "0.1")] "noon" (fun _ => true).

Definition moved_server : Server :=
  snd (handle float_of_str_sample sample_move sample_server).

(** The request [/move?dt=soon]. *)
Definition bad_move : request :=
  mkRequest Move [("dt", "soon")] "noon" (fun _ => true).

Section CircuitDefinitions.

Import QuantumCircuit AerSimulator.
Local Open Scope nat_scope.
Local Open Scope list_scope.

(** The circuit [qc] with the instructions [l] added at the end. *)
Definition appended (qc : circuit) (l : list instruction) : circuit :=
  {| num_qubits := num_qubits qc; cregs := cregs qc; data := data qc ++ l |}.

End CircuitDefinitions.

(** * Properties *)

(** ** Rounding never underflows a sum to zero

    The facts below follow the structure of [binary_round_aux]: two right
    shifts around a rounding step, each shorter than the mantissa. *)

Lemma shr_1_pos (m : positive) (r s : bool) :
  1 < Zpos (digits2_pos m) ->
  exists m' r' s',
    shr_1 {| shr_m := Zpos m; shr_r := r; shr_s := s |}
    = {| shr_m := Zpos m'; shr_r := r'; shr_s := s' |}
    /\ Zpos (digits2_pos m') = Zpos (digits2_pos m) - 1.
Proof.
  intros Hlt.
  destruct m as [m | m | ]; cbn [digits2_pos] in *; [ | | lia];
    cbn [shr_1]; eexists _, _, _; (split; [reflexivity | lia]).
Qed.

Lemma shr_1_iter_pos (p : positive) :
  forall (m : positive) (r s : bool),
    Zpos p < Zpos (digits2_pos m) ->
    exists m' r' s',
      iter_pos shr_1 p {| shr_m := Zpos m; shr_r := r; shr_s := s |}
      = {| shr_m := Zpos m'; shr_r := r'; shr_s := s' |}
      /\ Zpos (digits2_pos m') = Zpos (digits2_pos m) - Zpos p.
Proof.
  induction p as [p IH | p IH | ]; intros m r s Hlt; cbn [iter_pos].
  - destruct (shr_1_pos m r s) as (m0 & r0 & s0 & E0 & D0); [lia | ].
    rewrite E0.
    destruct (IH m0 r0 s0) as (m1 & r1 & s1 & E1 & D1); [lia | ].
    rewrite E1.
    destruct (IH m1 r1 s1) as (m2 & r2 & s2 & E2 & D2); [lia | ].
    rewrite E2. exists m2, r2, s2. split; [reflexivity | lia].
  - destruct (IH m r s) as (m1 & r1 & s1 & E1 & D1); [lia | ].
    rewrite E1.
    destruct (IH m1 r1 s1) as (m2 & r2 & s2 & E2 & D2); [lia | ].
    rewrite E2. exists m2, r2, s2. split; [reflexivity | lia].
  - apply shr_1_pos. lia.
Qed.

Lemma fexp_emin (e : Z) : emin prec emax <= fexp prec emax e.
Proof. unfold fexp. lia. Qed.

(** Rounding a positive mantissa whose exponent is at least [emin] never
    underflows to zero. *)
Lemma shr_fexp_pos (m : positive) (e : Z) (l : location) :
  emin prec emax <= e ->
  exists m' r' s' e',
    shr_fexp prec emax (Zpos m) e l
    = ({| shr_m := Zpos m'; shr_r := r'; shr_s := s' |}, e')
    /\ emin prec emax <= e'.
Proof.
  intros He. unfold shr_fexp, shr. cbn [Zdigits2].
  assert (Hrec : exists r s, shr_record_of_loc (Zpos m) l
                             = {| shr_m := Zpos m; shr_r := r; shr_s := s |}).
  { destruct l as [ | [ | | ]]; cbn; eauto. }
  destruct Hrec as (r & s & ->).
  pose proof (fexp_emin (Zpos (digits2_pos m) + e)) as Hf.
  destruct (fexp prec emax (Zpos (digits2_pos m) + e) - e) as [ | p | p] eqn:En.
  - eauto 6.
  - destruct (shr_1_iter_pos p m r s) as (m' & r' & s' & E & _).
    + unfold fexp, emin, prec, emax in *. lia.
    + rewrite E. exists m', r', s'. eexists. split; [reflexivity | lia].
  - eauto 6.
Qed.

Lemma round_nearest_even_pos (m : positive) (l : location) :
  exists m', round_nearest_even (Zpos m) l = Zpos m'.
Proof.
  destruct l as [ | [ | | ]]; cbn [round_nearest_even]; eauto.
  - destruct (Z.even (Zpos m)); [eauto | ]. exists (m + 1)%positive. reflexivity.
  - exists (m + 1)%positive. reflexivity.
Qed.

Lemma binary_round_aux_nonzero (s : bool) (m : positive) (e : Z) (l : location) :
  emin prec emax <= e ->
  nonzero_result s (binary_round_aux prec emax s (Zpos m) e l).
Proof.
  intros He. unfold binary_round_aux.
  destruct (shr_fexp_pos m e l He) as (m1 & r1 & s1 & e1 & -> & He1).
  cbn [shr_m].
  destruct (round_nearest_even_pos m1
              (loc_of_shr_record {| shr_m := Zpos m1; shr_r := r1; shr_s := s1 |}))
    as (m2 & ->).
  destruct (shr_fexp_pos m2 e1 loc_Exact He1) as (m3 & r3 & s3 & e3 & -> & He3).
  cbn [shr_m].
  destruct (e3 <=? emax - prec); [left; eauto | right; reflexivity].
Qed.

Lemma binary_round_nonzero (s : bool) (m : positive) (e : Z) :
  emin prec emax <= e ->
  nonzero_result s (binary_round prec emax s m e).
Proof.
  intros He. unfold binary_round.
  destruct (shl_align m e (fexp prec emax (Zpos (digits2_pos m) + e)))
    as [mz ez] eqn:Es.
  apply binary_round_aux_nonzero.
  unfold shl_align in Es.
  pose proof (fexp_emin (Zpos (digits2_pos m) + e)).
  destruct (fexp prec emax (Zpos (digits2_pos m) + e) - e);
    injection Es as <- <-; first [lia | apply fexp_emin].
Qed.

Lemma binary_normalize_cases (n e : Z) :
  emin prec emax <= e ->
  binary_normalize prec emax n e false = pzero
  \/ exists s, nonzero_result s (binary_normalize prec emax n e false).
Proof.
  intros He. destruct n as [ | p | p]; cbn [binary_normalize].
  - left; reflexivity.
  - right; exists false. now apply binary_round_nonzero.
  - right; exists true. now apply binary_round_nonzero.
Qed.

Lemma valid_lower_bounded (f : float) :
  valid_binary prec emax f = true -> lower_bounded f.
Proof.
  destruct f as [ | | | s m e]; cbn; trivial.
  unfold bounded, canonical_mantissa. intros H.
  apply andb_prop in H. destruct H as [H _].
  apply Z.eqb_eq in H. rewrite <- H. apply fexp_emin.
Qed.

Lemma nonzero_result_spec (s : bool) (f : float) :
  nonzero_result s f -> lower_bounded f /\ f <> nzero /\ f <> pzero.
Proof.
  intros [(m & e & -> & He) | ->]; cbn; repeat split; trivial; discriminate.
Qed.

(** The sum of two floats is the negative zero only when both are. *)
Lemma fadd_lower_bounded (f g : float) :
  lower_bounded f -> lower_bounded g ->
  lower_bounded (fadd f g) /\ (fadd f g = nzero -> f = nzero /\ g = nzero).
Proof.
  intros Hf Hg.
  destruct f as [sf | sf | | sf mf ef], g as [sg | sg | | sg mg eg];
    unfold fadd, SFadd;
    try (split; [exact I | discriminate]);
    try (destruct sf, sg; split; first [exact I | discriminate | intros _; split; reflexivity]);
    try (destruct sf; split; first [exact I | discriminate]);
    try (destruct sg; split; first [exact I | discriminate]);
    try (split; [assumption | discriminate]).
  unfold lower_bounded in Hf, Hg.
  match goal with |- context [binary_normalize _ _ ?n ?e false] =>
    destruct (binary_normalize_cases n e) as [E | (s & Hnz)] end.
  - apply Z.min_glb; assumption.
  - rewrite E. cbn. split; [trivial | discriminate].
  - apply nonzero_result_spec in Hnz. destruct Hnz as (H1 & H2 & _).
    split; [exact H1 | intros H; contradiction].
Qed.

Lemma float_of_int_good (n : Z) (f : float) :
  float_of_int n = Ok f -> lower_bounded f /\ f <> nzero.
Proof.
  unfold float_of_int.
  destruct (binary_normalize_cases n 0) as [E | (s & Hnz)].
  - unfold emin, prec, emax. lia.
  - rewrite E. intros H; injection H as <-. split; [exact I | discriminate].
  - apply nonzero_result_spec in Hnz. destruct Hnz as (H1 & H2 & _).
    destruct (binary_normalize prec emax n 0 false); intros H;
      try discriminate; injection H as <-; split; trivial.
Qed.

(** ** Python arithmetic *)

Lemma float_of_int_0 : float_of_int 0 = Ok pzero.
Proof. reflexivity. Qed.

Lemma float_of_int_c :
  float_of_int Spacetime4D.c = Ok (S754_finite false 5029682823036928 (-24)).
Proof. vm_compute. reflexivity. Qed.

Lemma good_not_nzero (a : num) : good a -> is_nzero a = false.
Proof.
  destruct a as [n | [[ | ] | | | ]]; cbn; trivial.
  intros [_ H]. now contradiction H.
Qed.

(** Adding an int or a valid float to a good field gives a good field. *)
Lemma add_good (a b v : num) :
  good a -> valid_arg b -> add a b = Ok v -> good v.
Proof.
  destruct a as [m | f], b as [n | g]; cbn [add good valid_arg]; intros Ha Hb H.
  - injection H as <-. exact I.
  - destruct (float_of_int m) as [f | e] eqn:Ef; [ | discriminate].
    injection H as <-.
    destruct (float_of_int_good m f Ef) as [Lf Nf].
    destruct (fadd_lower_bounded f g Lf (valid_lower_bounded g Hb)) as [L N].
    split; [exact L | intros E; apply N in E; now destruct E].
  - destruct (float_of_int n) as [g | e] eqn:Eg; [ | discriminate].
    injection H as <-.
    destruct (float_of_int_good n g Eg) as [Lg Ng].
    destruct Ha as [Lf Nf].
    destruct (fadd_lower_bounded f g Lf Lg) as [L N].
    split; [exact L | intros E; apply N in E; now destruct E].
  - injection H as <-.
    destruct Ha as [Lf Nf].
    destruct (fadd_lower_bounded f g Lf (valid_lower_bounded g Hb)) as [L N].
    split; [exact L | intros E; apply N in E; now destruct E].
Qed.

(** [a + 0] is [a], except that the float negative zero becomes [0.0]. *)
Lemma add_zero (a : num) : is_nzero a = false -> add a (PyInt 0) = Ok a.
Proof.
  destruct a as [n | [[ | ] | | | ]]; cbn [add is_nzero]; intros H;
    try discriminate; try reflexivity.
  now rewrite Z.add_0_r.
Qed.

Lemma add_zero_nzero : add (PyFloat nzero) (PyInt 0) = Ok (PyFloat pzero).
Proof. reflexivity. Qed.

(** [a + 0] always has a value, equal to [a] as a number, and adding [0]
    again changes nothing more. *)
Lemma add_zero_total (a : num) :
  exists v, add a (PyInt 0) = Ok v /\ same_value v a /\ is_nzero v = false.
Proof.
  destruct (is_nzero a) eqn:E.
  - destruct a as [n | [[ | ] | | | ]]; try discriminate.
    exists (PyFloat pzero). split; [reflexivity | split; [ | reflexivity]].
    right. now exists false, true.
  - exists a. split; [now apply add_zero | split; [now left | exact E]].
Qed.

(** [c * a] never raises. *)
Lemma mul_c_total (a : num) : exists ct, mul (PyInt Spacetime4D.c) a = Ok ct.
Proof.
  destruct a as [n | f]; cbn [mul]; [eauto | ].
  rewrite float_of_int_c. eauto.
Qed.

(** A field that fits a float adds to any float, giving a float. *)
Lemma fits_float_add (v : num) :
  fits_float v ->
  exists vf, forall g, add v (PyFloat g) = Ok (PyFloat (fadd vf g)).
Proof.
  destruct v as [n | f]; cbn [fits_float add].
  - intros [f E]. exists f. intros g. now rewrite E.
  - intros _. now exists f.
Qed.

(** ** [Spacetime4D.move] *)

(** When the four additions have a value, [move] stores them and returns the
    tuple [(c * t, x, y, z)] of the new fields. *)
Lemma move_ok (s : Spacetime4D.state) (dt dx dy dz t' x' y' z' ct : num) :
  add (Spacetime4D.t s) dt = Ok t' ->
  add (Spacetime4D.x s) dx = Ok x' ->
  add (Spacetime4D.y s) dy = Ok y' ->
  add (Spacetime4D.z s) dz = Ok z' ->
  mul (PyInt Spacetime4D.c) t' = Ok ct ->
  Spacetime4D.move dt dx dy dz s
  = (Ok (ct, x', y', z'), Spacetime4D.mk t' x' y' z').
Proof.
  intros Ht Hx Hy Hz Hc.
  unfold Spacetime4D.move, Spacetime4D.iadd, bind, get, put, lift, ret.
  cbn -[add mul Spacetime4D.c]. rewrite Ht.
  cbn -[add mul Spacetime4D.c]. rewrite Hx.
  cbn -[add mul Spacetime4D.c]. rewrite Hy.
  cbn -[add mul Spacetime4D.c]. rewrite Hz.
  cbn -[add mul Spacetime4D.c]. rewrite Hc. reflexivity.
Qed.

(** Whatever [move] does, each field is then the old one or the sum. *)
Lemma move_fields (s : Spacetime4D.state) (dt dx dy dz : num) :
  let s' := snd (Spacetime4D.move dt dx dy dz s) in
  (Spacetime4D.t s' = Spacetime4D.t s
   \/ add (Spacetime4D.t s) dt = Ok (Spacetime4D.t s'))
  /\ (Spacetime4D.x s' = Spacetime4D.x s
      \/ add (Spacetime4D.x s) dx = Ok (Spacetime4D.x s'))
  /\ (Spacetime4D.y s' = Spacetime4D.y s
      \/ add (Spacetime4D.y s) dy = Ok (Spacetime4D.y s'))
  /\ (Spacetime4D.z s' = Spacetime4D.z s
      \/ add (Spacetime4D.z s) dz = Ok (Spacetime4D.z s')).
Proof.
  unfold Spacetime4D.move, Spacetime4D.iadd, bind, get, put, lift, ret.
  cbn -[add mul Spacetime4D.c].
  destruct (add (Spacetime4D.t s) dt) as [t' | e] eqn:Ht;
    cbn -[add mul Spacetime4D.c]; [ | tauto].
  destruct (add (Spacetime4D.x s) dx) as [x' | e] eqn:Hx;
    cbn -[add mul Spacetime4D.c]; [ | tauto].
  destruct (add (Spacetime4D.y s) dy) as [y' | e] eqn:Hy;
    cbn -[add mul Spacetime4D.c]; [ | tauto].
  destruct (add (Spacetime4D.z s) dz) as [z' | e] eqn:Hz;
    cbn -[add mul Spacetime4D.c]; [ | tauto].
  destruct (mul (PyInt Spacetime4D.c) t'); cbn; tauto.
Qed.

(** No field of a reachable position is the float negative zero. *)
Lemma reachable_good (s : Spacetime4D.state) :
  Spacetime4D.reachable s ->
  good (Spacetime4D.t s) /\ good (Spacetime4D.x s)
  /\ good (Spacetime4D.y s) /\ good (Spacetime4D.z s).
Proof.
  induction 1 as [ | s dt dx dy dz _ (Gt & Gx & Gy & Gz) Vt Vx Vy Vz].
  - cbn. tauto.
  - destruct (move_fields s dt dx dy dz) as (Ft & Fx & Fy & Fz).
    repeat split.
    + destruct Ft as [-> | E]; [exact Gt | exact (add_good _ _ _ Gt Vt E)].
    + destruct Fx as [-> | E]; [exact Gx | exact (add_good _ _ _ Gx Vx E)].
    + destruct Fy as [-> | E]; [exact Gy | exact (add_good _ _ _ Gy Vy E)].
    + destruct Fz as [-> | E]; [exact Gz | exact (add_good _ _ _ Gz Vz E)].
Qed.

(** [move(0, 0, 0, 0)] on a position without a negative zero. *)
Lemma move_zero_fixed (s : Spacetime4D.state) :
  is_nzero (Spacetime4D.t s) = false -> is_nzero (Spacetime4D.x s) = false ->
  is_nzero (Spacetime4D.y s) = false -> is_nzero (Spacetime4D.z s) = false ->
  exists ct,
    mul (PyInt Spacetime4D.c) (Spacetime4D.t s) = Ok ct
    /\ Spacetime4D.move (PyInt 0) (PyInt 0) (PyInt 0) (PyInt 0) s
       = (Ok (ct, Spacetime4D.x s, Spacetime4D.y s, Spacetime4D.z s), s).
Proof.
  intros Nt Nx Ny Nz.
  destruct (mul_c_total (Spacetime4D.t s)) as [ct Hc].
  exists ct. split; [exact Hc | ].
  rewrite (move_ok s _ _ _ _ _ _ _ _ ct
             (add_zero _ Nt) (add_zero _ Nx) (add_zero _ Ny) (add_zero _ Nz) Hc).
  now destruct s.
Qed.

(** On any position at all, [move(0, 0, 0, 0)] returns and keeps the value of
    every field; only the sign of a float zero can change. *)
Lemma move_zero_same_value (s : Spacetime4D.state) :
  exists tup s',
    Spacetime4D.move (PyInt 0) (PyInt 0) (PyInt 0) (PyInt 0) s = (Ok tup, s')
    /\ same_value (Spacetime4D.t s') (Spacetime4D.t s)
    /\ same_value (Spacetime4D.x s') (Spacetime4D.x s)
    /\ same_value (Spacetime4D.y s') (Spacetime4D.y s)
    /\ same_value (Spacetime4D.z s') (Spacetime4D.z s).
Proof.
  destruct (add_zero_total (Spacetime4D.t s)) as (t' & Ht & St & _).
  destruct (add_zero_total (Spacetime4D.x s)) as (x' & Hx & Sx & _).
  destruct (add_zero_total (Spacetime4D.y s)) as (y' & Hy & Sy & _).
  destruct (add_zero_total (Spacetime4D.z s)) as (z' & Hz & Sz & _).
  destruct (mul_c_total t') as [ct Hc].
  eexists _, _. split; [exact (move_ok s _ _ _ _ _ _ _ _ ct Ht Hx Hy Hz Hc) | ].
  cbn. tauto.
Qed.

(** ** [jsonify] *)

Lemma int_str_ok_small (n : Z) : Z.abs n < 10 ^ 18 -> int_str_ok n = true.
Proof.
  intros H. unfold int_str_ok. apply Z.ltb_lt.
  apply Z.lt_le_trans with (1 := H).
  apply Z.pow_le_mono_r; unfold max_str_digits; lia.
Qed.

Lemma json_ok_coord (ct x' y' z' : num) :
  json_ok (json_of_coord (ct, x', y', z'))
  = num_json_ok ct && (num_json_ok x' && (num_json_ok y' && num_json_ok z')).
Proof.
  cbn [json_of_coord json_ok]. now rewrite andb_true_r.
Qed.

Lemma jsonify_cases (obj : json) :
  (json_ok obj = true -> jsonify obj = Ok (Json obj))
  /\ (json_ok obj = false -> jsonify obj = Raise ValueError).
Proof. unfold jsonify. split; intros ->; reflexivity. Qed.

Lemma jsonify_raises (obj : json) (e : exn) :
  jsonify obj = Raise e -> e = ValueError.
Proof.
  unfold jsonify. destruct (json_ok obj); [discriminate | congruence].
Qed.


(** The JSON object of [/status] is written exactly when its position is. *)
Lemma json_ok_status (clock : string) (pos : Spacetime4D.coord) :
  json_ok (JObj [("node", JStr "Tesseract-Node Ω");
                 ("status", JStr "4D OPERATIONAL");
                 ("time", JStr clock);
                 ("position", json_of_coord pos);
                 ("qubits", JNum (PyInt 16));
                 ("offline", JBool true)])
  = json_ok (json_of_coord pos).
Proof.
  cbn [json_ok num_json_ok]. rewrite (int_str_ok_small 16) by reflexivity.
  cbn [andb]. now rewrite andb_true_r.
Qed.

Lemma json_ok_move (pos : Spacetime4D.coord) :
  json_ok (JObj [("new_position", json_of_coord pos)])
  = json_ok (json_of_coord pos).
Proof. cbn [json_ok]. now rewrite andb_true_r. Qed.

(** ** The routes on the position *)

Lemma on_spacetime_run {A : Type} (m : Py Spacetime4D.state A) (srv : Server) :
  on_spacetime m srv
  = (fst (m (spacetime srv)), mkServer (snd (m (spacetime srv))) (memory srv)).
Proof. unfold on_spacetime. now destruct (m (spacetime srv)). Qed.

(** [/status] when the four additions of [0] have a value. *)
Lemma status_ok (srv : Server) (clock : string) (t' x' y' z' ct : num) :
  add (Spacetime4D.t (spacetime srv)) (PyInt 0) = Ok t' ->
  add (Spacetime4D.x (spacetime srv)) (PyInt 0) = Ok x' ->
  add (Spacetime4D.y (spacetime srv)) (PyInt 0) = Ok y' ->
  add (Spacetime4D.z (spacetime srv)) (PyInt 0) = Ok z' ->
  mul (PyInt Spacetime4D.c) t' = Ok ct ->
  status clock srv
  = (jsonify (JObj [("node", JStr "Tesseract-Node Ω");
                    ("status", JStr "4D OPERATIONAL");
                    ("time", JStr clock);
                    ("position", JArr [JNum ct; JNum x'; JNum y'; JNum z']);
                    ("qubits", JNum (PyInt 16));
                    ("offline", JBool true)]),
     mkServer (Spacetime4D.mk t' x' y' z') (memory srv)).
Proof.
  intros Ht Hx Hy Hz Hc. unfold status, bind.
  rewrite on_spacetime_run.
  rewrite (move_ok _ _ _ _ _ _ _ _ _ ct Ht Hx Hy Hz Hc). reflexivity.
Qed.

(** [/move] once its parameters are parsed, when the additions have a value. *)
Lemma move_with_ok (srv : Server) (dt dx : float) (t' x' y' z' ct : num) :
  add (Spacetime4D.t (spacetime srv)) (PyFloat dt) = Ok t' ->
  add (Spacetime4D.x (spacetime srv)) (PyFloat dx) = Ok x' ->
  add (Spacetime4D.y (spacetime srv)) (PyInt 0) = Ok y' ->
  add (Spacetime4D.z (spacetime srv)) (PyInt 0) = Ok z' ->
  mul (PyInt Spacetime4D.c) t' = Ok ct ->
  move_with dt dx srv
  = (jsonify (JObj [("new_position", JArr [JNum ct; JNum x'; JNum y'; JNum z'])]),
     mkServer (Spacetime4D.mk t' x' y' z') (memory srv)).
Proof.
  intros Ht Hx Hy Hz Hc. unfold move_with, bind.
  rewrite on_spacetime_run.
  rewrite (move_ok _ _ _ _ _ _ _ _ _ ct Ht Hx Hy Hz Hc). reflexivity.
Qed.

(** The state [/move] leaves, whatever it answers. *)
Lemma move_with_state (srv : Server) (dt dx : float) :
  snd (move_with dt dx srv)
  = mkServer
      (snd (Spacetime4D.move (PyFloat dt) (PyFloat dx) (PyInt 0) (PyInt 0)
              (spacetime srv)))
      (memory srv).
Proof.
  unfold move_with, bind. rewrite on_spacetime_run.
  now destruct (Spacetime4D.move (PyFloat dt) (PyFloat dx) (PyInt 0) (PyInt 0)
                  (spacetime srv)) as [[pos | e] sp'].
Qed.

Lemma move_parsed (float_of_str : string -> option float) (a : query)
    (dt dx : float) (srv : Server) :
  float_arg float_of_str "dt" a = Ok dt ->
  float_arg float_of_str "dx" a = Ok dx ->
  move float_of_str a srv = move_with dt dx srv.
Proof.
  intros Ht Hx. unfold move, bind, lift. now rewrite Ht, Hx.
Qed.

(** C8. For every position state, the tuple [Spacetime4D.move] returns has
    the constant [c = 299792458] times the (new) time field as its first
    component and the raw [x], [y], [z] fields as the other three; the
    position reported by [/status] and by [/move] is that tuple: the
    response is [jsonify] of the object that holds it, which is that object
    as JSON when the four numbers can be written and [ValueError] when one
    of them is an int of more than 4300 digits.  The hypotheses say that the
    four additions have a value (an int too large for a float added to a
    float has none). *)
Theorem C8_tuple_starts_with_c_times_t
    (s : Spacetime4D.state) (dt dx dy dz t' x' y' z' : num) :
  add (Spacetime4D.t s) dt = Ok t' ->
  add (Spacetime4D.x s) dx = Ok x' ->
  add (Spacetime4D.y s) dy = Ok y' ->
  add (Spacetime4D.z s) dz = Ok z' ->
  Spacetime4D.c = 299792458
  /\ exists ct,
      mul (PyInt 299792458) t' = Ok ct
      /\ Spacetime4D.move dt dx dy dz s
         = (Ok (ct, x', y', z'), Spacetime4D.mk t' x' y' z')
      /\ (forall n, t' = PyInt n -> ct = PyInt (299792458 * n))
      /\ (forall n, t' = PyInt n -> n <> 0 -> ct <> t')
      /\ (forall f, t' = PyFloat f ->
          exists cf, float_of_int 299792458 = Ok cf /\ ct = PyFloat (fmul cf f))
      /\ (forall mem clock,
          dt = PyInt 0 -> dx = PyInt 0 -> dy = PyInt 0 -> dz = PyInt 0 ->
          exists j,
            json_field "position" j
            = Some (JArr [JNum ct; JNum x'; JNum y'; JNum z'])
            /\ fst (status clock (mkServer s mem)) = jsonify j
            /\ (json_ok (JArr [JNum ct; JNum x'; JNum y'; JNum z']) = true ->
                jsonify j = Ok (Json j))
            /\ (json_ok (JArr [JNum ct; JNum x'; JNum y'; JNum z']) = false ->
                jsonify j = Raise ValueError))
      /\ (forall mem float_of_str a dtf dxf,
          dt = PyFloat dtf -> dx = PyFloat dxf -> dy = PyInt 0 -> dz = PyInt 0 ->
          float_arg float_of_str "dt" a = Ok dtf ->
          float_arg float_of_str "dx" a = Ok dxf ->
          fst (move float_of_str a (mkServer s mem))
          = jsonify (JObj [("new_position",
                            JArr [JNum ct; JNum x'; JNum y'; JNum z'])])
          /\ (json_ok (JArr [JNum ct; JNum x'; JNum y'; JNum z']) = true ->
              fst (move float_of_str a (mkServer s mem))
              = Ok (Json (JObj [("new_position",
                                 JArr [JNum ct; JNum x'; JNum y'; JNum z'])])))
          /\ (json_ok (JArr [JNum ct; JNum x'; JNum y'; JNum z']) = false ->
              fst (move float_of_str a (mkServer s mem)) = Raise ValueError)).
Proof.
  intros Ht Hx Hy Hz. split; [reflexivity | ].
  destruct (mul_c_total t') as [ct Hc]. exists ct.
  split; [exact Hc | ].
  split; [exact (move_ok s _ _ _ _ _ _ _ _ ct Ht Hx Hy Hz Hc) | ].
  split; [ | split; [ | split; [ | split]]].
  - intros n ->. cbn [mul] in Hc. now injection Hc as <-.
  - intros n -> Hn. cbn [mul] in Hc. injection Hc as <-.
    change (PyInt (299792458 * n) <> PyInt n). intros E.
    apply (f_equal (fun a => match a with PyInt k => k | PyFloat _ => 0 end)) in E.
    cbv beta iota in E. lia.
  - intros f ->. cbn [mul] in Hc. rewrite float_of_int_c in Hc.
    injection Hc as <-. eexists. split; [exact float_of_int_c | reflexivity].
  - intros mem clock -> -> -> ->.
    exists (JObj [("node", JStr "Tesseract-Node Ω");
                  ("status", JStr "4D OPERATIONAL");
                  ("time", JStr clock);
                  ("position", JArr [JNum ct; JNum x'; JNum y'; JNum z']);
                  ("qubits", JNum (PyInt 16));
                  ("offline", JBool true)]).
    rewrite (status_ok (mkServer s mem) clock _ _ _ _ ct Ht Hx Hy Hz Hc).
    split; [reflexivity | split; [reflexivity | ]].
    pose proof (json_ok_status clock (ct, x', y', z')) as E.
    cbn [json_of_coord] in E. rewrite <- E. apply jsonify_cases.
  - intros mem fos a dtf dxf -> -> -> -> Pt Px.
    rewrite (move_parsed fos a dtf dxf _ Pt Px).
    rewrite (move_with_ok (mkServer s mem) dtf dxf _ _ _ _ ct Ht Hx Hy Hz Hc).
    split; [reflexivity | ].
    pose proof (json_ok_move (ct, x', y', z')) as E.
    cbn [json_of_coord] in E. rewrite <- E. apply jsonify_cases.
Qed.

(** A run of C8: from the position after startup, [move(1, 10.1, 0, 0)]. *)
Lemma C8_witness :
  Spacetime4D.c = 299792458
  /\ exists ct,
      mul (PyInt 299792458) (PyInt 1) = Ok ct
      /\ Spacetime4D.move (PyInt 1) (PyFloat tenth) (PyInt 0) (PyInt 0)
           (Spacetime4D.mk (PyInt 0) (PyInt 6) (PyInt 0) (PyInt 0))
         = (Ok (ct, PyFloat (S754_finite false 6867989431740006 (-50)),
                PyInt 0, PyInt 0),
            Spacetime4D.mk (PyInt 1)
              (PyFloat (S754_finite false 6867989431740006 (-50)))
              (PyInt 0) (PyInt 0))
      /\ (forall n, PyInt 1 = PyInt n -> ct = PyInt (299792458 * n)).
Proof.
  destruct (C8_tuple_starts_with_c_times_t
              (Spacetime4D.mk (PyInt 0) (PyInt 6) (PyInt 0) (PyInt 0))
              (PyInt 1) (PyFloat tenth) (PyInt 0) (PyInt 0)
              (PyInt 1) (PyFloat (S754_finite false 6867989431740006 (-50)))
              (PyInt 0) (PyInt 0))
    as (Hc & ct & H1 & H2 & H3 & _); try reflexivity.
  split; [exact Hc | ]. exists ct. repeat split; assumption.
Defined.

(** C10. For every position state (every state a [Spacetime4D] takes, see
    [Spacetime4D.reachable]), [move(0, 0, 0, 0)] leaves the four fields
    unchanged and returns the current position tuple; hence a [/status]
    request leaves the server state, and the position in it, as it was. *)
Theorem C10_move_zero_changes_nothing (s : Spacetime4D.state) :
  Spacetime4D.reachable s ->
  (exists ct,
      mul (PyInt Spacetime4D.c) (Spacetime4D.t s) = Ok ct
      /\ Spacetime4D.move (PyInt 0) (PyInt 0) (PyInt 0) (PyInt 0) s
         = (Ok (ct, Spacetime4D.x s, Spacetime4D.y s, Spacetime4D.z s), s))
  /\ forall (mem : HyperMemory.state) (clock : string),
      snd (status clock (mkServer s mem)) = mkServer s mem.
Proof.
  intros R. destruct (reachable_good s R) as (Gt & Gx & Gy & Gz).
  apply good_not_nzero in Gt, Gx, Gy, Gz.
  destruct (move_zero_fixed s Gt Gx Gy Gz) as (ct & Hc & Hm).
  split; [now exists ct | ].
  intros mem clock.
  rewrite (status_ok (mkServer s mem) clock _ _ _ _ ct
             (add_zero _ Gt) (add_zero _ Gx) (add_zero _ Gy) (add_zero _ Gz) Hc).
  now destruct s.
Qed.

(** C10 on the position left by [move(0.1, 0.1, 0, 0)] on a new object. *)
Lemma C10_witness :
  Spacetime4D.reachable sample_position
  /\ (exists ct,
         mul (PyInt Spacetime4D.c) (Spacetime4D.t sample_position) = Ok ct
         /\ Spacetime4D.move (PyInt 0) (PyInt 0) (PyInt 0) (PyInt 0) sample_position
            = (Ok (ct, Spacetime4D.x sample_position,
                   Spacetime4D.y sample_position, Spacetime4D.z sample_position),
               sample_position))
  /\ forall (mem : HyperMemory.state) (clock : string),
      snd (status clock (mkServer sample_position mem))
      = mkServer sample_position mem.
Proof.
  assert (R : Spacetime4D.reachable sample_position).
  { apply Spacetime4D.reach_move;
      [apply Spacetime4D.reach_init | reflexivity | reflexivity | exact I | exact I]. }
  split; [exact R | exact (C10_move_zero_changes_nothing sample_position R)].
Defined.


(** The position after startup is reachable: four [move] calls on a new
    object. *)
Lemma startup_reachable (randint : nat -> Z) :
  Spacetime4D.reachable (spacetime (snd (startup randint))).
Proof.
  change (Spacetime4D.reachable
            (snd (Spacetime4D.move (PyInt 0) (PyInt 3) (PyInt 0) (PyInt 0)
            (snd (Spacetime4D.move (PyInt 0) (PyInt 2) (PyInt 0) (PyInt 0)
            (snd (Spacetime4D.move (PyInt 0) (PyInt 1) (PyInt 0) (PyInt 0)
            (snd (Spacetime4D.move (PyInt 0) (PyInt 0) (PyInt 0) (PyInt 0)
                    Spacetime4D.init))))))))).
  repeat (apply Spacetime4D.reach_move; try exact I).
  apply Spacetime4D.reach_init.
Qed.


(** C4. For every request to [/move] whose [dt] or [dx] parameter is present
    but is not a float literal, the handler raises [ValueError] (no JSON is
    produced) and the server state is unchanged: both parameters are parsed
    before the position is touched. *)
Theorem C4_move_parse_error_keeps_state
    (float_of_str : string -> option float) (srv : Server) (a : query) :
  (exists s, args_get "dt" a = Some s /\ float_of_str s = None)
  \/ (exists s, args_get "dx" a = Some s /\ float_of_str s = None) ->
  move float_of_str a srv = (Raise ValueError, srv).
Proof.
  intros [(s & Ha & Hs) | (s & Ha & Hs)];
    unfold move, bind, lift, float_arg.
  - now rewrite Ha, Hs.
  - rewrite Ha, Hs.
    destruct (args_get "dt" a) as [s' | ].
    + now destruct (float_of_str s').
    + now rewrite float_of_int_0.
Qed.

(** C4 on the request [/move?dt=1&dx=fast] right after startup. *)
Lemma C4_witness :
  move float_of_str_sample [("dt", "1"); ("dx", "fast")] sample_server
  = (Raise ValueError, sample_server).
Proof.
  apply C4_move_parse_error_keeps_state.
  right. exists "fast". split; reflexivity.
Defined.

(** ** Additivity of [/move] *)

(** The two float sums of C1 once the field fits a float. *)
Lemma add3_fits (v : num) :
  fits_float v ->
  exists vf,
    (forall g, add v (PyFloat g) = Ok (PyFloat (fadd vf g)))
    /\ (forall a c, add3_left v a c = Ok (PyFloat (fadd (fadd vf a) c)))
    /\ (forall a c, add3_right v a c = Ok (PyFloat (fadd vf (fadd a c)))).
Proof.
  intros F. destruct (fits_float_add v F) as [vf H]. exists vf.
  split; [exact H | split; intros a c].
  - unfold add3_left. now rewrite H.
  - unfold add3_right. apply H.
Qed.

(** C1, as the code has it: [/move] is additive up to float rounding.  On a
    position whose [t] and [x] can be added to a float, the request [/move]
    with [(a, b)] followed by the request [/move] with [(c, d)] leaves the
    same server state and gives the same final response as the one request
    [/move] with [(a + c, b + d)] exactly when [(t + a) + c = t + (a + c)]
    and [(x + b) + d = x + (b + d)] as float sums; the [y] and [z] fields
    and the memory of the two final states agree in every case. *)
Theorem C1_move_additive_iff_sums_agree (srv : Server) (a b c d : float) :
  fits_float (Spacetime4D.t (spacetime srv)) ->
  fits_float (Spacetime4D.x (spacetime srv)) ->
  (two_moves a b c d srv = one_move a b c d srv
   <-> add3_left (Spacetime4D.t (spacetime srv)) a c
       = add3_right (Spacetime4D.t (spacetime srv)) a c
       /\ add3_left (Spacetime4D.x (spacetime srv)) b d
          = add3_right (Spacetime4D.x (spacetime srv)) b d)
  /\ Spacetime4D.y (spacetime (snd (two_moves a b c d srv)))
     = Spacetime4D.y (spacetime (snd (one_move a b c d srv)))
  /\ Spacetime4D.z (spacetime (snd (two_moves a b c d srv)))
     = Spacetime4D.z (spacetime (snd (one_move a b c d srv)))
  /\ memory (snd (two_moves a b c d srv))
     = memory (snd (one_move a b c d srv)).
Proof.
  intros Ft Fx.
  destruct (add3_fits _ Ft) as (tf & Ht & Htl & Htr).
  destruct (add3_fits _ Fx) as (xf & Hx & Hxl & Hxr).
  rewrite Htl, Htr, Hxl, Hxr.
  destruct (add_zero_total (Spacetime4D.y (spacetime srv))) as (y1 & Hy & _ & Ny).
  destruct (add_zero_total (Spacetime4D.z (spacetime srv))) as (z1 & Hz & _ & Nz).
  destruct (mul_c_total (PyFloat (fadd tf a))) as [c1 Hc1].
  destruct (mul_c_total (PyFloat (fadd (fadd tf a) c))) as [c2 Hc2].
  destruct (mul_c_total (PyFloat (fadd tf (fadd a c)))) as [c3 Hc3].
  unfold two_moves, one_move.
  rewrite (move_with_ok srv a b _ _ _ _ c1 (Ht a) (Hx b) Hy Hz Hc1).
  cbn [snd].
  rewrite (move_with_ok
             (mkServer (Spacetime4D.mk (PyFloat (fadd tf a)) (PyFloat (fadd xf b)) y1 z1)
                (memory srv))
             c d (PyFloat (fadd (fadd tf a) c)) (PyFloat (fadd (fadd xf b) d)) y1 z1 c2
             eq_refl eq_refl (add_zero _ Ny) (add_zero _ Nz) Hc2).
  rewrite (move_with_ok srv (fadd a c) (fadd b d) _ _ _ _ c3
             (Ht (fadd a c)) (Hx (fadd b d)) Hy Hz Hc3).
  split; [ | repeat split].
  split.
  - intros E. split; congruence.
  - intros [Et Ex].
    assert (Et' : fadd (fadd tf a) c = fadd tf (fadd a c)) by congruence.
    assert (Ex' : fadd (fadd xf b) d = fadd xf (fadd b d)) by congruence.
    rewrite Et' in Hc2 |- *. rewrite Ex'.
    assert (E2 : c2 = c3) by congruence.
    now rewrite E2.
Qed.

(** C1 where no sum rounds: [/move?dt=1&dx=1] twice after startup is
    [/move?dt=2&dx=2]; [y] is the same after both in any case. *)
Lemma C1_witness :
  two_moves one one one one sample_server = one_move one one one one sample_server
  /\ Spacetime4D.y (spacetime (snd (two_moves one one one one sample_server)))
     = Spacetime4D.y (spacetime (snd (one_move one one one one sample_server))).
Proof.
  destruct (C1_move_additive_iff_sums_agree sample_server one one one one)
    as (Hiff & Hy & _).
  - exists pzero. reflexivity.
  - eexists. reflexivity.
  - split; [ | exact Hy]. apply Hiff. split; reflexivity.
Defined.

(** C1 as stated fails: right after startup ([x = 6]), [/move?dx=0.1] twice
    leaves [x = 6.199999999999999], while [/move?dx=0.2] (and [0.1 + 0.1] is
    exactly [0.2]) leaves [x = 6.2]. *)
Lemma C1_counterexample :
  two_moves pzero tenth pzero tenth sample_server
  <> one_move pzero tenth pzero tenth sample_server.
Proof.
  intros E.
  apply (f_equal (fun r => Spacetime4D.x (spacetime (snd r)))) in E.
  unfold two_moves, one_move in E. rewrite !move_with_state in E.
  vm_compute in E. discriminate E.
Qed.

(** ** The memory is written at startup only *)

Lemma pm_ret {A : Type} (a : A) : preserves_memory (ret a).
Proof. intros srv. reflexivity. Qed.

Lemma pm_lift {A : Type} (r : result A) : preserves_memory (lift r).
Proof. intros srv. reflexivity. Qed.

Lemma pm_bind {A B : Type} (m : Py Server A) (k : A -> Py Server B) :
  preserves_memory m -> (forall a, preserves_memory (k a)) ->
  preserves_memory (bind m k).
Proof.
  intros Hm Hk srv. unfold bind. specialize (Hm srv).
  destruct (m srv) as [[a | e] srv']; cbn in *.
  - now rewrite Hk.
  - exact Hm.
Qed.

Lemma pm_on_spacetime {A : Type} (m : Py Spacetime4D.state A) :
  preserves_memory (on_spacetime m).
Proof. intros srv. now rewrite on_spacetime_run. Qed.

Lemma pm_retrieve (pos : HyperMemory.key) :
  preserves_memory (on_memory (HyperMemory.retrieve pos)).
Proof. intros srv. reflexivity. Qed.

Create HintDb pm.

#[local] Hint Resolve pm_ret pm_lift pm_on_spacetime pm_retrieve : pm.

Lemma handle_preserves_memory (float_of_str : string -> option float) (r : request) :
  preserves_memory (handle float_of_str r).
Proof.
  unfold handle.
  destruct (path r);
    unfold home, status, entangle, ghz, move, move_with, grover;
    repeat (apply pm_bind; [ | intros ? ]); auto with pm.
Qed.

Lemma drift_round_preserves_memory (r1 r2 r3 : float) :
  preserves_memory (drift_round r1 r2 r3).
Proof.
  unfold drift_round.
  repeat (apply pm_bind; [ | intros ? ]); auto with pm.
Qed.

Lemma startup_state (randint : nat -> Z) :
  startup randint
  = (Ok tt,
     mkServer (Spacetime4D.mk (PyInt 0) (PyInt 6) (PyInt 0) (PyInt 0))
       [((PyInt 0, PyInt 0, PyInt 0, PyInt 0), randint 0%nat);
        ((PyInt 0, PyInt 1, PyInt 0, PyInt 0), randint 1%nat);
        ((PyInt 0, PyInt 3, PyInt 0, PyInt 0), randint 2%nat);
        ((PyInt 0, PyInt 6, PyInt 0, PyInt 0), randint 3%nat)]).
Proof. reflexivity. Qed.

Lemma served_memory (float_of_str : string -> option float) (randint : nat -> Z)
    (srv : Server) :
  served float_of_str randint srv ->
  memory srv = memory (snd (startup randint)).
Proof.
  induction 1 as [ | r srv _ IH | r1 r2 r3 srv _ _ _ _ IH]; [reflexivity | | ].
  - now rewrite handle_preserves_memory.
  - now rewrite drift_round_preserves_memory.
Qed.

(** C6. The memory holds exactly four entries after startup, and every route
    handler ([/], [/status], [/entangle], [/ghz], [/move], [/grover]) leaves
    it unchanged, whatever the request and whether the handler returns or
    raises: no route reaches [HyperMemory.store]. *)
Theorem C6_routes_never_write_memory (randint : nat -> Z) :
  (exists srv0,
      startup randint = (Ok tt, srv0)
      /\ memory srv0
         = [((PyInt 0, PyInt 0, PyInt 0, PyInt 0), randint 0%nat);
            ((PyInt 0, PyInt 1, PyInt 0, PyInt 0), randint 1%nat);
            ((PyInt 0, PyInt 3, PyInt 0, PyInt 0), randint 2%nat);
            ((PyInt 0, PyInt 6, PyInt 0, PyInt 0), randint 3%nat)]
      /\ List.length (memory srv0) = 4%nat)
  /\ (forall float_of_str r srv,
         memory (snd (handle float_of_str r srv)) = memory srv)
  /\ (forall float_of_str srv,
         served float_of_str randint srv ->
         memory srv = memory (snd (startup randint))).
Proof.
  split; [ | split].
  - eexists. rewrite startup_state. repeat split.
  - intros fos r srv. apply handle_preserves_memory.
  - intros fos srv. apply served_memory.
Qed.

(** ** The circuits *)

Lemma create_entangled_pair_key (o : AerSimulator.shot) :
  QuantumCore.create_entangled_pair o
  = Ok (String (AerSimulator.bit_char (o 1%nat))
          (String (AerSimulator.bit_char (o 0%nat)) "")).
Proof. reflexivity. Qed.

Lemma ghz_state_key (o : AerSimulator.shot) :
  QuantumCore.ghz_state 4 o
  = Ok [(String (AerSimulator.bit_char (o 3%nat))
           (String (AerSimulator.bit_char (o 2%nat))
              (String (AerSimulator.bit_char (o 1%nat))
                 (String (AerSimulator.bit_char (o 0%nat)) " 0000"))), 1%nat)].
Proof. reflexivity. Qed.

Lemma grover_search_11_key (o : AerSimulator.shot) :
  QuantumCore.grover_search 2 "11" o
  = Ok (String (AerSimulator.bit_char (o 1%nat))
          (String (AerSimulator.bit_char (o 0%nat)) "")).
Proof. reflexivity. Qed.

Lemma grover_search_other (target : string) (o : AerSimulator.shot) :
  target <> "11" -> QuantumCore.grover_search 2 target o = Raise TypeError.
Proof.
  intros H. apply String.eqb_neq in H.
  unfold QuantumCore.grover_search. rewrite H. reflexivity.
Qed.

(** C7. For every request to [/entangle] and every measurement outcome, the
    response is JSON whose [bell_pair] is a string of exactly two characters,
    each ['0'] or ['1'] (the two measured bits), and whose [entanglement] is
    ["ACHIEVED"]; the server state is untouched. *)
Theorem C7_entangle_returns_two_bits (o : AerSimulator.shot) (srv : Server) :
  exists k,
    entangle o srv
    = (Ok (Json (JObj [("bell_pair", JStr k); ("entanglement", JStr "ACHIEVED")])),
       srv)
    /\ k = String (AerSimulator.bit_char (o 1%nat))
             (String (AerSimulator.bit_char (o 0%nat)) "")
    /\ String.length k = 2%nat
    /\ is_binary k = true.
Proof.
  eexists. unfold entangle, bind, lift. rewrite create_entangled_pair_key.
  split; [reflexivity | split; [reflexivity | ]].
  destruct (o 0%nat), (o 1%nat); split; reflexivity.
Qed.

(** C2, what the code does.  For every request to [/ghz] and every
    measurement outcome the response is JSON with [qubits = 4], but its
    [ghz_state] is not a four-character binary string: [measure_all] puts
    the four measured bits in a new register, so the key is those four bits,
    a space, and the four untouched bits ["0000"] of register [c]: nine
    characters. *)
Theorem C2_ghz_state_is_nine_characters (o : AerSimulator.shot) (srv : Server) :
  exists k,
    ghz o srv
    = (Ok (Json (JObj [("ghz_state", JStr k); ("qubits", JNum (PyInt 4))])), srv)
    /\ k = String (AerSimulator.bit_char (o 3%nat))
             (String (AerSimulator.bit_char (o 2%nat))
                (String (AerSimulator.bit_char (o 1%nat))
                   (String (AerSimulator.bit_char (o 0%nat)) " 0000")))
    /\ String.length k = 9%nat
    /\ is_binary k = false.
Proof.
  eexists. unfold ghz, bind, lift. rewrite ghz_state_key.
  cbn [QuantumCore.first_key fst]. unfold jsonify.
  cbn [json_ok num_json_ok]. rewrite (int_str_ok_small 4) by reflexivity.
  split; [reflexivity | split; [reflexivity | ]].
  destruct (o 0%nat), (o 1%nat), (o 2%nat), (o 3%nat); split; reflexivity.
Qed.

(** The JSON object of [/grover] is written exactly when the item found is. *)
Lemma json_ok_grover (found : option Z) (k : string) :
  json_ok (JObj [("found_item", json_of_found found);
                 ("at_binary_index", JStr k);
                 ("quantum_speedup", JStr "ACHIEVED")])
  = json_ok (json_of_found found).
Proof. cbn [json_ok]. now rewrite andb_true_r. Qed.

(** [/grover] with the target ["11"], given or by default: the response the
    spec describes, written by [jsonify]. *)
Lemma grover_target_11 (a : query) (o : AerSimulator.shot) (srv : Server) :
  args_get "target" a = None \/ args_get "target" a = Some "11" ->
  grover a o srv
  = (jsonify (JObj [("found_item",
                     json_of_found (HyperMemory.dict_get origin (memory srv)));
                    ("at_binary_index",
                     JStr (String (AerSimulator.bit_char (o 1%nat))
                             (String (AerSimulator.bit_char (o 0%nat)) "")));
                    ("quantum_speedup", JStr "ACHIEVED")]),
     srv).
Proof.
  intros H. unfold grover, bind, lift.
  assert (E : match args_get "target" a with Some s => s | None => "11" end = "11")
    by (destruct H as [-> | ->]; reflexivity).
  rewrite E, grover_search_11_key.
  destruct srv as [sp mem].
  destruct (o 0%nat), (o 1%nat); reflexivity.
Qed.

Lemma grover_raises_on_other_target
    (a : query) (target : string) (o : AerSimulator.shot) (srv : Server) :
  args_get "target" a = Some target ->
  target <> "11" ->
  grover a o srv = (Raise TypeError, srv).
Proof.
  intros Ha Ht. unfold grover, bind, lift.
  rewrite Ha, (grover_search_other target o Ht). reflexivity.
Qed.

(** C3, what the code does.  For every [target] other than ["11"] the
    handler of [/grover] raises [TypeError] and returns no JSON: the oracle
    line calls [qc.id()] without its qubit. *)
Theorem C3_grover_other_target_raises
    (a : query) (target : string) (o : AerSimulator.shot) (srv : Server) :
  args_get "target" a = Some target ->
  target <> "11" ->
  grover a o srv = (Raise TypeError, srv).
Proof. exact (grover_raises_on_other_target a target o srv). Qed.

(** C3 on the request [/grover?target=00] right after startup. *)
Lemma C3_witness :
  grover [("target", "00")] (fun _ => false) sample_server
  = (Raise TypeError, sample_server).
Proof.
  apply (C3_grover_other_target_raises [("target", "00")] "00").
  - reflexivity.
  - discriminate.
Defined.

(** ** The states the program reaches *)



(** What a handler does to the state: nothing, or one [move] whose [dt] and
    [dx] are the int [0] or parsed floats and whose [dy], [dz] are [0]. *)
Lemma handle_state (float_of_str : string -> option float) (r : request)
    (srv : Server) :
  snd (handle float_of_str r srv) = srv
  \/ exists dt dx,
      (dt = PyInt 0
       \/ exists f, dt = PyFloat f /\ float_arg float_of_str "dt" (args r) = Ok f)
      /\ (dx = PyInt 0
          \/ exists f, dx = PyFloat f /\ float_arg float_of_str "dx" (args r) = Ok f)
      /\ snd (handle float_of_str r srv)
         = mkServer (snd (Spacetime4D.move dt dx (PyInt 0) (PyInt 0) (spacetime srv)))
             (memory srv).
Proof.
  unfold handle. destruct (path r).
  - left. reflexivity.
  - right. exists (PyInt 0), (PyInt 0). split; [now left | split; [now left | ]].
    unfold status, bind. rewrite on_spacetime_run.
    now destruct (Spacetime4D.move (PyInt 0) (PyInt 0) (PyInt 0) (PyInt 0)
                    (spacetime srv)) as [[pos | e] sp'].
  - left. unfold entangle, bind, lift. now rewrite create_entangled_pair_key.
  - left. unfold ghz, bind, lift. now rewrite ghz_state_key.
  - unfold move, bind, lift.
    destruct (float_arg float_of_str "dt" (args r)) as [dt | e] eqn:Et;
      [ | now left].
    destruct (float_arg float_of_str "dx" (args r)) as [dx | e] eqn:Ex;
      [ | now left].
    right. exists (PyFloat dt), (PyFloat dx).
    split; [right; now exists dt | split; [right; now exists dx | ]].
    unfold move_with, bind. rewrite on_spacetime_run.
    now destruct (Spacetime4D.move (PyFloat dt) (PyFloat dx) (PyInt 0) (PyInt 0)
                    (spacetime srv)) as [[pos | e] sp'].
  - left. unfold grover, bind, lift.
    destruct (QuantumCore.grover_search 2 _ (sim r)) as [k | e]; [ | reflexivity].
    destruct (int_base2 k); [ | reflexivity].
    now destruct srv.
Qed.

(** What a drift round does to the state: its first [move], and the second
    one when the first returned. *)
Lemma drift_round_steps (r1 r2 r3 : float) (srv : Server) :
  snd (drift_round r1 r2 r3 srv)
  = match Spacetime4D.move (PyInt 1) (PyFloat r1) (PyFloat r2) (PyFloat r3)
            (spacetime srv) with
    | (Ok _, sp1) =>
        mkServer (snd (Spacetime4D.move (PyInt 0) (PyInt 0) (PyInt 0) (PyInt 0) sp1))
          (memory srv)
    | (Raise _, sp1) => mkServer sp1 (memory srv)
    end.
Proof.
  unfold drift_round, bind. rewrite on_spacetime_run.
  destruct (Spacetime4D.move (PyInt 1) (PyFloat r1) (PyFloat r2) (PyFloat r3)
              (spacetime srv)) as [[pos | e] sp1]; cbn [fst snd]; [ | reflexivity].
  rewrite on_spacetime_run. cbn [spacetime memory].
  now destruct (Spacetime4D.move (PyInt 0) (PyInt 0) (PyInt 0) (PyInt 0) sp1)
    as [[pos' | e] sp2].
Qed.

Lemma float_arg_valid (float_of_str : string -> option float) (key : string)
    (a : query) (f : float) :
  (forall s g, float_of_str s = Some g -> valid_binary prec emax g = true) ->
  float_arg float_of_str key a = Ok f ->
  valid_binary prec emax f = true.
Proof.
  intros V. unfold float_arg.
  destruct (args_get key a) as [s | ].
  - destruct (float_of_str s) as [g | ] eqn:E; [ | discriminate].
    intros H. injection H as <-. exact (V s g E).
  - rewrite float_of_int_0. intros H. injection H as <-. reflexivity.
Qed.

(** A drift round keeps the memory and leaves a reachable position. *)
Lemma drift_round_state (r1 r2 r3 : float) (srv : Server) :
  valid_binary prec emax r1 = true ->
  valid_binary prec emax r2 = true ->
  valid_binary prec emax r3 = true ->
  Spacetime4D.reachable (spacetime srv) ->
  memory (snd (drift_round r1 r2 r3 srv)) = memory srv
  /\ Spacetime4D.reachable (spacetime (snd (drift_round r1 r2 r3 srv))).
Proof.
  intros V1 V2 V3 R. split; [apply drift_round_preserves_memory | ].
  rewrite drift_round_steps.
  assert (R1 : Spacetime4D.reachable
                 (snd (Spacetime4D.move (PyInt 1) (PyFloat r1) (PyFloat r2)
                         (PyFloat r3) (spacetime srv))))
    by (apply Spacetime4D.reach_move; trivial; exact I).
  destruct (Spacetime4D.move (PyInt 1) (PyFloat r1) (PyFloat r2) (PyFloat r3)
              (spacetime srv)) as [[pos | e] sp1]; cbn in *; [ | exact R1].
  apply Spacetime4D.reach_move; trivial; exact I.
Qed.

(** Every state the program reaches has a reachable position. *)
Lemma served_reachable (float_of_str : string -> option float)
    (randint : nat -> Z) (srv : Server) :
  (forall s g, float_of_str s = Some g -> valid_binary prec emax g = true) ->
  served float_of_str randint srv ->
  Spacetime4D.reachable (spacetime srv).
Proof.
  intros V. induction 1 as [ | r srv _ IH | r1 r2 r3 srv V1 V2 V3 _ IH].
  - apply startup_reachable.
  - destruct (handle_state float_of_str r srv)
      as [-> | (dt & dx & Dt & Dx & ->)]; [exact IH | ].
    cbn [spacetime]. apply Spacetime4D.reach_move; try exact I; [exact IH | | ].
    + destruct Dt as [-> | (f & -> & E)]; [exact I | ].
      exact (float_arg_valid _ _ _ _ V E).
    + destruct Dx as [-> | (f & -> & E)]; [exact I | ].
      exact (float_arg_valid _ _ _ _ V E).
  - now apply drift_round_state.
Qed.

(** A field that is the int [n] or a float stays so under [+ 0] and under
    [+ float]. *)
Lemma shape_after_add (n : Z) (v d v' : num) :
  int_or_float n v -> int_or_float 0 d -> add v d = Ok v' -> int_or_float n v'.
Proof.
  unfold int_or_float.
  intros [-> | [f ->]] [-> | [g ->]]; cbn [add]; intros H.
  - injection H as <-. left. now rewrite Z.add_0_r.
  - destruct (float_of_int n); [ | discriminate]. injection H as <-. eauto.
  - destruct (float_of_int 0); [ | discriminate]. injection H as <-. eauto.
  - injection H as <-. eauto.
Qed.

(** A float field stays a float under [+]. *)
Lemma float_after_add (f : float) (d v' : num) :
  add (PyFloat f) d = Ok v' -> exists g, v' = PyFloat g.
Proof.
  destruct d as [n | g]; cbn [add]; intros H.
  - destruct (float_of_int n); [ | discriminate]. injection H as <-. eauto.
  - injection H as <-. eauto.
Qed.

(** A counter or float stays so under [+ 0], [+ 1] and [+ float]. *)
Lemma count_after_add (v d v' : num) :
  count_or_float v ->
  d = PyInt 0 \/ d = PyInt 1 \/ (exists g, d = PyFloat g) ->
  add v d = Ok v' ->
  count_or_float v'.
Proof.
  unfold count_or_float.
  intros [(n & Hn & ->) | [f ->]] D H.
  - destruct D as [-> | [-> | [g ->]]]; cbn [add] in H.
    + injection H as <-. left. exists (n + 0). split; [lia | reflexivity].
    + injection H as <-. left. exists (n + 1). split; [lia | reflexivity].
    + destruct (float_of_int n); [ | discriminate]. injection H as <-. eauto.
  - right. exact (float_after_add f d v' H).
Qed.

(** The [move] calls of the handlers and of the drift keep the shape. *)
Lemma program_shape_move (sp : Spacetime4D.state) (dt dx dy dz : num) :
  program_shape sp ->
  dt = PyInt 0 \/ dt = PyInt 1 \/ (exists g, dt = PyFloat g) ->
  int_or_float 0 dx -> int_or_float 0 dy -> int_or_float 0 dz ->
  program_shape (snd (Spacetime4D.move dt dx dy dz sp)).
Proof.
  intros (St & Sx & Sy & Sz) Dt Dx Dy Dz.
  destruct (move_fields sp dt dx dy dz) as (Mt & Mx & My & Mz).
  repeat split.
  - destruct Mt as [-> | E]; [exact St | exact (count_after_add _ _ _ St Dt E)].
  - destruct Mx as [-> | E]; [exact Sx | exact (shape_after_add 6 _ _ _ Sx Dx E)].
  - destruct My as [-> | E]; [exact Sy | exact (shape_after_add 0 _ _ _ Sy Dy E)].
  - destruct Mz as [-> | E]; [exact Sz | exact (shape_after_add 0 _ _ _ Sz Dz E)].
Qed.

(** What the program's shape gives: [x] can be added to a float, and [x],
    [y], [z] can be written as JSON. *)
Lemma program_shape_ready (sp : Spacetime4D.state) :
  program_shape sp ->
  fits_float (Spacetime4D.x sp)
  /\ num_json_ok (Spacetime4D.x sp) = true
  /\ num_json_ok (Spacetime4D.y sp) = true
  /\ num_json_ok (Spacetime4D.z sp) = true.
Proof.
  intros (_ & [-> | [fx ->]] & [-> | [fy ->]] & [-> | [fz ->]]);
    cbn [fits_float num_json_ok]; repeat split;
    try (apply int_str_ok_small; reflexivity);
    eexists; reflexivity.
Qed.

(** On the program's shape the first [move] of a drift round returns. *)
Lemma program_shape_drift (sp : Spacetime4D.state) (r1 r2 r3 : float) :
  program_shape sp ->
  exists pos sp',
    Spacetime4D.move (PyInt 1) (PyFloat r1) (PyFloat r2) (PyFloat r3) sp
    = (Ok pos, sp').
Proof.
  intros (St & Sx & Sy & Sz).
  assert (At : exists t', add (Spacetime4D.t sp) (PyInt 1) = Ok t').
  { destruct St as [(n & Hn & ->) | [f ->]]; eexists; reflexivity. }
  destruct At as (t' & At).
  assert (F : fits_float (Spacetime4D.x sp) /\ fits_float (Spacetime4D.y sp)
              /\ fits_float (Spacetime4D.z sp)).
  { destruct Sx as [-> | [fx ->]], Sy as [-> | [fy ->]], Sz as [-> | [fz ->]];
      cbn [fits_float]; repeat split; eexists; reflexivity. }
  destruct F as (Fx & Fy & Fz).
  destruct (fits_float_add _ Fx) as [xf Hx].
  destruct (fits_float_add _ Fy) as [yf Hy].
  destruct (fits_float_add _ Fz) as [zf Hz].
  destruct (mul_c_total t') as [ct Hc].
  eexists _, _.
  exact (move_ok sp _ _ _ _ _ _ _ _ ct At (Hx r1) (Hy r2) (Hz r3) Hc).
Qed.

(** Every state the program reaches has the program's shape. *)
Lemma served_shape (float_of_str : string -> option float)
    (randint : nat -> Z) (srv : Server) :
  served float_of_str randint srv -> program_shape (spacetime srv).
Proof.
  induction 1 as [ | r srv _ IH | r1 r2 r3 srv _ _ _ _ IH].
  - split; [left; exists 0; split; [lia | reflexivity] | ].
    repeat split; now left.
  - destruct (handle_state float_of_str r srv)
      as [-> | (dt & dx & Dt & Dx & ->)]; [exact IH | ].
    cbn [spacetime]. apply program_shape_move; [exact IH | | | now left | now left].
    + destruct Dt as [-> | (f & -> & _)]; [now left | right; right; eauto].
    + destruct Dx as [-> | (f & -> & _)]; [now left | right; eauto].
  - rewrite drift_round_steps.
    assert (P1 : program_shape
                   (snd (Spacetime4D.move (PyInt 1) (PyFloat r1) (PyFloat r2)
                           (PyFloat r3) (spacetime srv))))
      by (apply program_shape_move; [exact IH | tauto | | | ]; right; eauto).
    destruct (Spacetime4D.move (PyInt 1) (PyFloat r1) (PyFloat r2) (PyFloat r3)
                (spacetime srv)) as [[pos | e] sp1]; cbn [snd spacetime] in *;
      [ | exact P1].
    apply program_shape_move; [exact P1 | | | | ]; now left.
Qed.

(** With int fields and int deltas, as in the seeding loop, [move] is
    additive exactly. *)
Lemma move_int_additive (t0 x0 y0 z0 a b c d a' b' c' d' : Z) :
  let s := Spacetime4D.mk (PyInt t0) (PyInt x0) (PyInt y0) (PyInt z0) in
  (Spacetime4D.move (PyInt a) (PyInt b) (PyInt c) (PyInt d) ;;;
   Spacetime4D.move (PyInt a') (PyInt b') (PyInt c') (PyInt d')) s
  = Spacetime4D.move (PyInt (a + a')) (PyInt (b + b')) (PyInt (c + c'))
      (PyInt (d + d')) s.
Proof.
  intros s. unfold bind.
  rewrite (move_ok s _ _ _ _ (PyInt (t0 + a)) (PyInt (x0 + b)) (PyInt (y0 + c))
             (PyInt (z0 + d)) (PyInt (Spacetime4D.c * (t0 + a))));
    try reflexivity.
  rewrite (move_ok _ (PyInt a') (PyInt b') (PyInt c') (PyInt d')
             (PyInt (t0 + a + a')) (PyInt (x0 + b + b')) (PyInt (y0 + c + c'))
             (PyInt (z0 + d + d')) (PyInt (Spacetime4D.c * (t0 + a + a'))));
    try reflexivity.
  rewrite (move_ok s (PyInt (a + a')) (PyInt (b + b')) (PyInt (c + c'))
             (PyInt (d + d'))
             (PyInt (t0 + a + a')) (PyInt (x0 + b + b')) (PyInt (y0 + c + c'))
             (PyInt (z0 + d + d')) (PyInt (Spacetime4D.c * (t0 + a + a'))));
    try reflexivity; cbn [add Spacetime4D.t Spacetime4D.x Spacetime4D.y Spacetime4D.z s];
    now rewrite Z.add_assoc.
Qed.

(** * Further properties *)

(** ** [HyperMemory] as a dictionary *)

Lemma SFeqb_refl (f : float) : f <> S754_nan -> SFeqb f f = true.
Proof.
  intros H. unfold SFeqb.
  destruct f as [s | s | | s m e]; cbn; try reflexivity.
  - now destruct s.
  - now contradiction H.
  - destruct s; rewrite Z.compare_refl, Pos.compare_cont_refl; reflexivity.
Qed.

Lemma eqb_refl (a : num) : is_nan a = false -> PyNum.eqb a a = true.
Proof.
  destruct a as [n | f]; cbn [PyNum.eqb].
  - intros _. apply Z.eqb_refl.
  - intros H. apply SFeqb_refl. intros ->. discriminate.
Qed.

Lemma key_eqb_refl (k : HyperMemory.key) :
  nan_free k -> HyperMemory.key_eqb k k = true.
Proof.
  destruct k as [[[a b] c] d]. intros (Ha & Hb & Hc & Hd). cbn.
  now rewrite !eqb_refl.
Qed.

(** Two ints equal to the same number are the same int. *)
Lemma eqb_int_unique (a0 : num) (n n' : Z) :
  PyNum.eqb a0 (PyInt n) = true -> PyNum.eqb a0 (PyInt n') = true -> n = n'.
Proof.
  destruct a0 as [m | f]; cbn [PyNum.eqb].
  - rewrite !Z.eqb_eq. congruence.
  - destruct f as [s | s | | s m e]; cbn [int_eqb_float]; try discriminate.
    + rewrite !Z.eqb_eq. congruence.
    + destruct (0 <=? e) eqn:E; rewrite !Z.eqb_eq; [congruence | ].
      intros H1 H2. apply Z.leb_gt in E.
      assert (P : 0 < 2 ^ (- e)) by (apply Z.pow_pos_nonneg; lia).
      nia.
Qed.

Lemma key_eqb_int_unique (k0 : HyperMemory.key) (a b c d a' b' c' d' : Z) :
  HyperMemory.key_eqb k0 (int_key a b c d) = true ->
  HyperMemory.key_eqb k0 (int_key a' b' c' d') = true ->
  int_key a b c d = int_key a' b' c' d'.
Proof.
  destruct k0 as [[[a0 b0] c0] d0]. unfold int_key. cbn [HyperMemory.key_eqb].
  rewrite !andb_true_iff. intros [[[A B] C] D] [[[A' B'] C'] D'].
  now rewrite (eqb_int_unique _ _ _ A A'), (eqb_int_unique _ _ _ B B'),
    (eqb_int_unique _ _ _ C C'), (eqb_int_unique _ _ _ D D').
Qed.

Lemma dict_get_set_same (k : HyperMemory.key) (v : Z) (d : HyperMemory.state) :
  nan_free k ->
  HyperMemory.dict_get k (HyperMemory.dict_set k v d) = Some v.
Proof.
  intros H. induction d as [ | [k0 v0] d IH]; cbn.
  - now rewrite key_eqb_refl.
  - destruct (HyperMemory.key_eqb k0 k) eqn:E; cbn; now rewrite E.
Qed.

(** X1. A value stored under a key with no NaN in it is what [retrieve]
    returns for that key, whatever the memory held before. *)
Theorem X1_store_then_retrieve (k : HyperMemory.key) (v : Z) (d : HyperMemory.state) :
  nan_free k ->
  fst (HyperMemory.retrieve k (snd (HyperMemory.store k v d))) = Ok (Some v).
Proof.
  intros H. cbn. now rewrite dict_get_set_same.
Qed.

Lemma X1_witness :
  fst (HyperMemory.retrieve (int_key 0 3 0 0)
         (snd (HyperMemory.store (int_key 0 3 0 0) 7 (memory sample_server))))
  = Ok (Some 7).
Proof.
  apply X1_store_then_retrieve. cbn. tauto.
Defined.

(** X2. Storing under one int key does not change what [retrieve] returns
    for a different int key: the entries of a memory with int, float or
    mixed keys are looked up independently. *)
Theorem X2_store_keeps_other_keys
    (a b c d a' b' c' d' : Z) (v : Z) (m : HyperMemory.state) :
  int_key a b c d <> int_key a' b' c' d' ->
  fst (HyperMemory.retrieve (int_key a' b' c' d')
         (snd (HyperMemory.store (int_key a b c d) v m)))
  = fst (HyperMemory.retrieve (int_key a' b' c' d') m).
Proof.
  intros H. cbn -[HyperMemory.key_eqb int_key HyperMemory.dict_get HyperMemory.dict_set].
  f_equal.
  induction m as [ | [k0 v0] m IH]; cbn -[HyperMemory.key_eqb int_key].
  - destruct (HyperMemory.key_eqb (int_key a b c d) (int_key a' b' c' d')) eqn:E;
      [ | reflexivity].
    exfalso. apply H.
    apply (key_eqb_int_unique (int_key a b c d)); [ | exact E].
    apply key_eqb_refl. cbn. tauto.
  - destruct (HyperMemory.key_eqb k0 (int_key a b c d)) eqn:E;
      cbn -[HyperMemory.key_eqb int_key].
    + destruct (HyperMemory.key_eqb k0 (int_key a' b' c' d')) eqn:E'; [ | reflexivity].
      exfalso. apply H. exact (key_eqb_int_unique k0 _ _ _ _ _ _ _ _ E E').
    + now rewrite IH.
Qed.

Lemma X2_witness :
  fst (HyperMemory.retrieve (int_key 0 0 0 0)
         (snd (HyperMemory.store (int_key 0 2 0 0) 7 (memory sample_server))))
  = fst (HyperMemory.retrieve (int_key 0 0 0 0) (memory sample_server)).
Proof.
  apply X2_store_keeps_other_keys. discriminate.
Defined.

(** X3. [store] under a key with no NaN in it grows the memory by one entry
    when the key is new and keeps its size when the key is already there. *)
Theorem X3_store_size (k : HyperMemory.key) (v : Z) (d : HyperMemory.state) :
  nan_free k ->
  List.length (snd (HyperMemory.store k v d))
  = match HyperMemory.dict_get k d with
    | Some _ => List.length d
    | None => S (List.length d)
    end.
Proof.
  intros _. cbn. induction d as [ | [k0 v0] d IH]; cbn; [reflexivity | ].
  destruct (HyperMemory.key_eqb k0 k); cbn; [reflexivity | ].
  rewrite IH. now destruct (HyperMemory.dict_get k d).
Qed.

Lemma X3_witness :
  nan_free (int_key 0 2 0 0)
  /\ List.length (snd (HyperMemory.store (int_key 0 2 0 0) 7 (memory sample_server)))
     = match HyperMemory.dict_get (int_key 0 2 0 0) (memory sample_server) with
       | Some _ => List.length (memory sample_server)
       | None => S (List.length (memory sample_server))
       end.
Proof.
  assert (N : nan_free (int_key 0 2 0 0)) by (cbn; tauto).
  split; [exact N | exact (X3_store_size (int_key 0 2 0 0) 7 (memory sample_server) N)].
Defined.

(** X4. Of two values stored in turn under the same NaN-free key, the
    second wins and the first leaves no trace. *)
Theorem X4_second_store_wins (k : HyperMemory.key) (v1 v2 : Z) (d : HyperMemory.state) :
  nan_free k ->
  snd (HyperMemory.store k v2 (snd (HyperMemory.store k v1 d)))
  = snd (HyperMemory.store k v2 d).
Proof.
  intros H. cbn. induction d as [ | [k0 v0] d IH]; cbn.
  - now rewrite key_eqb_refl.
  - destruct (HyperMemory.key_eqb k0 k) eqn:E; cbn; rewrite E; [reflexivity | ].
    now rewrite IH.
Qed.

Lemma X4_witness :
  snd (HyperMemory.store (int_key 0 1 0 0) 8
         (snd (HyperMemory.store (int_key 0 1 0 0) 7 (memory sample_server))))
  = snd (HyperMemory.store (int_key 0 1 0 0) 8 (memory sample_server)).
Proof.
  apply X4_second_store_wins. cbn. tauto.
Defined.

(** ** The position under [move], [/status] and [/move] *)

Lemma float_of_int_raises (n : Z) (e : exn) :
  float_of_int n = Raise e -> e = OverflowError.
Proof.
  unfold float_of_int.
  destruct (binary_normalize prec emax n 0 false); intros H;
    try discriminate; now injection H as <-.
Qed.

(** The only exception of [+] is [OverflowError]. *)
Lemma add_raises (a b : num) (e : exn) : add a b = Raise e -> e = OverflowError.
Proof.
  destruct a as [m | f], b as [n | g]; cbn [add]; try discriminate.
  - destruct (float_of_int m) eqn:E; [discriminate | ].
    intros H. injection H as <-. exact (float_of_int_raises _ _ E).
  - destruct (float_of_int n) eqn:E; [discriminate | ].
    intros H. injection H as <-. exact (float_of_int_raises _ _ E).
Qed.

(** [move] stops at the first addition that raises, with the fields before
    it already updated. *)
Lemma move_raises_at_x (s : Spacetime4D.state) (dt dx dy dz t' : num) (e : exn) :
  add (Spacetime4D.t s) dt = Ok t' ->
  add (Spacetime4D.x s) dx = Raise e ->
  Spacetime4D.move dt dx dy dz s
  = (Raise e,
     Spacetime4D.mk t' (Spacetime4D.x s) (Spacetime4D.y s) (Spacetime4D.z s)).
Proof.
  intros Ht Hx.
  unfold Spacetime4D.move, Spacetime4D.iadd, bind, get, put, lift, ret.
  cbn -[add mul Spacetime4D.c]. rewrite Ht.
  cbn -[add mul Spacetime4D.c]. rewrite Hx. reflexivity.
Qed.

Lemma move_raises (s s' : Spacetime4D.state) (dt dx dy dz : num) (e : exn) :
  Spacetime4D.move dt dx dy dz s = (Raise e, s') -> e = OverflowError.
Proof.
  unfold Spacetime4D.move, Spacetime4D.iadd, bind, get, put, lift, ret.
  cbn -[add mul Spacetime4D.c].
  destruct (add (Spacetime4D.t s) dt) as [t' | e1] eqn:Ht;
    cbn -[add mul Spacetime4D.c];
    [ | intros H; injection H as <- _; exact (add_raises _ _ _ Ht)].
  destruct (add (Spacetime4D.x s) dx) as [x' | e1] eqn:Hx;
    cbn -[add mul Spacetime4D.c];
    [ | intros H; injection H as <- _; exact (add_raises _ _ _ Hx)].
  destruct (add (Spacetime4D.y s) dy) as [y' | e1] eqn:Hy;
    cbn -[add mul Spacetime4D.c];
    [ | intros H; injection H as <- _; exact (add_raises _ _ _ Hy)].
  destruct (add (Spacetime4D.z s) dz) as [z' | e1] eqn:Hz;
    cbn -[add mul Spacetime4D.c];
    [ | intros H; injection H as <- _; exact (add_raises _ _ _ Hz)].
  destruct (mul_c_total t') as [ct Hc]. rewrite Hc. discriminate.
Qed.

(** X5. [/move] is not all-or-nothing: when the sum for [t] has a value and
    the sum for [x] does not ([x] is an int too large for a float), the
    handler raises [OverflowError] with [t] already changed and [x], [y],
    [z] and the memory as they were. *)
Theorem X5_move_failure_keeps_new_t
    (float_of_str : string -> option float) (srv : Server) (a : query)
    (dt dx : float) (t' : num) (e : exn) :
  float_arg float_of_str "dt" a = Ok dt ->
  float_arg float_of_str "dx" a = Ok dx ->
  add (Spacetime4D.t (spacetime srv)) (PyFloat dt) = Ok t' ->
  add (Spacetime4D.x (spacetime srv)) (PyFloat dx) = Raise e ->
  move float_of_str a srv
  = (Raise OverflowError,
     mkServer
       (Spacetime4D.mk t' (Spacetime4D.x (spacetime srv))
          (Spacetime4D.y (spacetime srv)) (Spacetime4D.z (spacetime srv)))
       (memory srv)).
Proof.
  intros Pt Px Ht Hx.
  rewrite (move_parsed float_of_str a dt dx srv Pt Px).
  unfold move_with, bind. rewrite on_spacetime_run.
  rewrite (move_raises_at_x _ _ _ _ _ t' e Ht Hx).
  now rewrite (add_raises _ _ _ Hx).
Qed.

Lemma X5_witness :
  move float_of_str_sample [("dt", "1")] huge_x_server
  = (Raise OverflowError,
     mkServer
       (Spacetime4D.mk (PyFloat one) (PyInt (2 ^ 1024)) (PyInt 0) (PyInt 0)) []).
Proof.
  apply (X5_move_failure_keeps_new_t float_of_str_sample huge_x_server
           [("dt", "1")] one pzero (PyFloat one) OverflowError);
    reflexivity.
Defined.

(** X6. No sequence of [move] calls, with ints or floats, returning or
    raising, ever leaves the float negative zero in a field of a
    [Spacetime4D]. *)
Theorem X6_reachable_never_negative_zero (s : Spacetime4D.state) :
  Spacetime4D.reachable s ->
  is_nzero (Spacetime4D.t s) = false /\ is_nzero (Spacetime4D.x s) = false
  /\ is_nzero (Spacetime4D.y s) = false /\ is_nzero (Spacetime4D.z s) = false.
Proof.
  intros R. destruct (reachable_good s R) as (Gt & Gx & Gy & Gz).
  repeat split; now apply good_not_nzero.
Qed.

Lemma X6_witness :
  Spacetime4D.reachable
    (snd (Spacetime4D.move (PyFloat nzero) (PyFloat nzero) (PyFloat nzero)
            (PyFloat nzero) Spacetime4D.init))
  /\ is_nzero (Spacetime4D.t
                 (snd (Spacetime4D.move (PyFloat nzero) (PyFloat nzero)
                         (PyFloat nzero) (PyFloat nzero) Spacetime4D.init)))
     = false.
Proof.
  assert (R : Spacetime4D.reachable
                (snd (Spacetime4D.move (PyFloat nzero) (PyFloat nzero)
                        (PyFloat nzero) (PyFloat nzero) Spacetime4D.init)))
    by (apply Spacetime4D.reach_move; [apply Spacetime4D.reach_init | | | | ];
        reflexivity).
  split; [exact R | exact (proj1 (X6_reachable_never_negative_zero _ R))].
Defined.


(** X7. In every server state at all (huge ints, NaN, infinities)
    [/status] keeps the memory and the value of every field of the position,
    and its response is [jsonify] of the status object: that object as JSON
    when the numbers of the position can be written, [ValueError] when one
    of them is an int of more than 4300 digits. *)
Theorem X7_status_keeps_every_field (srv : Server) (clock : string) :
  exists j pos srv',
    status clock srv = (jsonify j, srv')
    /\ json_field "time" j = Some (JStr clock)
    /\ json_field "position" j = Some (json_of_coord pos)
    /\ (json_ok (json_of_coord pos) = true -> jsonify j = Ok (Json j))
    /\ (json_ok (json_of_coord pos) = false -> jsonify j = Raise ValueError)
    /\ memory srv' = memory srv
    /\ same_value (Spacetime4D.t (spacetime srv')) (Spacetime4D.t (spacetime srv))
    /\ same_value (Spacetime4D.x (spacetime srv')) (Spacetime4D.x (spacetime srv))
    /\ same_value (Spacetime4D.y (spacetime srv')) (Spacetime4D.y (spacetime srv))
    /\ same_value (Spacetime4D.z (spacetime srv')) (Spacetime4D.z (spacetime srv)).
Proof.
  destruct (add_zero_total (Spacetime4D.t (spacetime srv))) as (t' & Ht & St & _).
  destruct (add_zero_total (Spacetime4D.x (spacetime srv))) as (x' & Hx & Sx & _).
  destruct (add_zero_total (Spacetime4D.y (spacetime srv))) as (y' & Hy & Sy & _).
  destruct (add_zero_total (Spacetime4D.z (spacetime srv))) as (z' & Hz & Sz & _).
  destruct (mul_c_total t') as [ct Hc].
  eexists _, (ct, x', y', z'), _.
  rewrite (status_ok srv clock _ _ _ _ ct Ht Hx Hy Hz Hc).
  split; [reflexivity | split; [reflexivity | split; [reflexivity | ]]].
  rewrite <- (json_ok_status clock (ct, x', y', z')).
  split; [apply jsonify_cases | split; [apply jsonify_cases | ]].
  cbn. repeat split; assumption.
Qed.

Lemma fadd_pzero_r (f : float) : f <> nzero -> fadd f pzero = f.
Proof.
  intros H. destruct f as [[ | ] | | | ]; try reflexivity.
  now contradiction H.
Qed.

Lemma as_float_add_zero (v : num) (f : float) :
  good v -> as_float v = Ok f -> add v (PyFloat pzero) = Ok (PyFloat f).
Proof.
  destruct v as [n | g]; cbn [as_float add good].
  - intros _ E. rewrite E.
    destruct (float_of_int_good n f E) as [_ N]. now rewrite fadd_pzero_r.
  - intros [_ N] E. injection E as <-. now rewrite fadd_pzero_r.
Qed.

(** X8. A [/move] without [dt] and [dx] is not a no-op: on a position
    whose [y] and [z] can be written as JSON it keeps [y], [z] and the
    memory, but leaves [t] and [x] as the floats [float(t)] and [float(x)],
    so an int position such as the one after startup becomes a float
    position. *)
Theorem X8_move_without_parameters_makes_floats
    (float_of_str : string -> option float) (srv : Server) (a : query)
    (tf xf : float) :
  args_get "dt" a = None ->
  args_get "dx" a = None ->
  Spacetime4D.reachable (spacetime srv) ->
  as_float (Spacetime4D.t (spacetime srv)) = Ok tf ->
  as_float (Spacetime4D.x (spacetime srv)) = Ok xf ->
  num_json_ok (Spacetime4D.y (spacetime srv)) = true ->
  num_json_ok (Spacetime4D.z (spacetime srv)) = true ->
  exists ct,
    mul (PyInt Spacetime4D.c) (PyFloat tf) = Ok ct
    /\ move float_of_str a srv
       = (Ok (Json (JObj [("new_position",
                           JArr [JNum ct; JNum (PyFloat xf);
                                 JNum (Spacetime4D.y (spacetime srv));
                                 JNum (Spacetime4D.z (spacetime srv))])])),
          mkServer
            (Spacetime4D.mk (PyFloat tf) (PyFloat xf)
               (Spacetime4D.y (spacetime srv)) (Spacetime4D.z (spacetime srv)))
            (memory srv)).
Proof.
  intros At Ax R Ht Hx Jy Jz.
  destruct (reachable_good _ R) as (Gt & Gx & Gy & Gz).
  destruct (mul_c_total (PyFloat tf)) as [ct Hc]. exists ct.
  split; [exact Hc | ].
  assert (Pt : float_arg float_of_str "dt" a = Ok pzero)
    by (unfold float_arg; now rewrite At).
  assert (Px : float_arg float_of_str "dx" a = Ok pzero)
    by (unfold float_arg; now rewrite Ax).
  rewrite (move_parsed float_of_str a pzero pzero srv Pt Px).
  rewrite (move_with_ok srv pzero pzero _ _ _ _ ct
             (as_float_add_zero _ _ Gt Ht) (as_float_add_zero _ _ Gx Hx)
             (add_zero _ (good_not_nzero _ Gy)) (add_zero _ (good_not_nzero _ Gz)) Hc).
  f_equal. apply jsonify_cases.
  cbn [mul] in Hc. rewrite float_of_int_c in Hc. injection Hc as <-.
  cbn [json_ok num_json_ok]. now rewrite Jy, Jz.
Qed.

Lemma X8_witness :
  exists ct,
    mul (PyInt Spacetime4D.c) (PyFloat pzero) = Ok ct
    /\ move float_of_str_sample [] sample_server
       = (Ok (Json (JObj [("new_position",
                           JArr [JNum ct;
                                 JNum (PyFloat (S754_finite false 6755399441055744 (-50)));
                                 JNum (PyInt 0); JNum (PyInt 0)])])),
          mkServer
            (Spacetime4D.mk (PyFloat pzero)
               (PyFloat (S754_finite false 6755399441055744 (-50)))
               (PyInt 0) (PyInt 0))
            (memory sample_server)).
Proof.
  apply (X8_move_without_parameters_makes_floats float_of_str_sample
           sample_server [] pzero (S754_finite false 6755399441055744 (-50))).
  - reflexivity.
  - reflexivity.
  - apply startup_reachable.
  - reflexivity.
  - reflexivity.
  - apply int_str_ok_small. reflexivity.
  - apply int_str_ok_small. reflexivity.
Defined.

(** ** What requests can and cannot do *)

Lemma entangle_state (o : AerSimulator.shot) (srv : Server) :
  snd (entangle o srv) = srv.
Proof.
  unfold entangle, bind, lift. now rewrite create_entangled_pair_key.
Qed.

Lemma ghz_state_unchanged (o : AerSimulator.shot) (srv : Server) :
  snd (ghz o srv) = srv.
Proof.
  unfold ghz, bind, lift. now rewrite ghz_state_key.
Qed.

Lemma grover_state (a : query) (o : AerSimulator.shot) (srv : Server) :
  snd (grover a o srv) = srv.
Proof.
  unfold grover, bind, lift.
  destruct (QuantumCore.grover_search 2 _ o) as [k | e]; [ | reflexivity].
  destruct (int_base2 k); [ | reflexivity].
  now destruct srv.
Qed.

(** X9. [/], [/entangle], [/ghz] and [/grover] leave the whole server state,
    position and memory, exactly as it was, for every request and every
    measurement outcome, whether they return or raise. *)
Theorem X9_read_only_routes (r : request) (srv : Server)
    (float_of_str : string -> option float) :
  path r = Home \/ path r = Entangle \/ path r = Ghz \/ path r = Grover ->
  snd (handle float_of_str r srv) = srv.
Proof.
  unfold handle.
  intros [-> | [-> | [-> | ->]]].
  - reflexivity.
  - apply entangle_state.
  - apply ghz_state_unchanged.
  - apply grover_state.
Qed.

Lemma X9_witness :
  snd (handle float_of_str_sample
         (mkRequest Grover [("target", "01")] "noon" (fun _ => true))
         sample_server)
  = sample_server.
Proof.
  apply X9_read_only_routes. right. right. right. reflexivity.
Defined.

Lemma entangle_answers (o : AerSimulator.shot) (srv : Server) :
  exists j, fst (entangle o srv) = Ok (Json j).
Proof.
  unfold entangle, bind, lift. rewrite create_entangled_pair_key.
  eexists. reflexivity.
Qed.

Lemma ghz_answers (o : AerSimulator.shot) (srv : Server) :
  exists j, fst (ghz o srv) = Ok (Json j).
Proof.
  unfold ghz, bind, lift. rewrite ghz_state_key.
  cbn [QuantumCore.first_key fst]. unfold jsonify.
  cbn [json_ok num_json_ok]. rewrite (int_str_ok_small 4) by reflexivity.
  eexists. reflexivity.
Qed.

Lemma status_route_raises (srv : Server) (clock : string) (e : exn) :
  fst (status clock srv) = Raise e -> e = ValueError.
Proof.
  destruct (add_zero_total (Spacetime4D.t (spacetime srv))) as (t' & Ht & _).
  destruct (add_zero_total (Spacetime4D.x (spacetime srv))) as (x' & Hx & _).
  destruct (add_zero_total (Spacetime4D.y (spacetime srv))) as (y' & Hy & _).
  destruct (add_zero_total (Spacetime4D.z (spacetime srv))) as (z' & Hz & _).
  destruct (mul_c_total t') as [ct Hc].
  rewrite (status_ok srv clock _ _ _ _ ct Ht Hx Hy Hz Hc).
  apply jsonify_raises.
Qed.

Lemma float_arg_raises (float_of_str : string -> option float) (key : string)
    (a : query) (e : exn) :
  float_arg float_of_str key a = Raise e -> e = ValueError.
Proof.
  unfold float_arg. destruct (args_get key a) as [s | ].
  - destruct (float_of_str s); [discriminate | ]. intros H. now injection H as <-.
  - rewrite float_of_int_0. discriminate.
Qed.

Lemma move_route_raises (float_of_str : string -> option float) (a : query)
    (srv : Server) (e : exn) :
  fst (move float_of_str a srv) = Raise e -> e = ValueError \/ e = OverflowError.
Proof.
  unfold move, bind, lift.
  destruct (float_arg float_of_str "dt" a) as [dt | e1] eqn:Et;
    [ | cbn; intros H; injection H as <-; left; exact (float_arg_raises _ _ _ _ Et)].
  destruct (float_arg float_of_str "dx" a) as [dx | e1] eqn:Ex;
    [ | cbn; intros H; injection H as <-; left; exact (float_arg_raises _ _ _ _ Ex)].
  unfold move_with, bind, lift. rewrite on_spacetime_run.
  destruct (Spacetime4D.move (PyFloat dt) (PyFloat dx) (PyInt 0) (PyInt 0)
              (spacetime srv)) as [[pos | e1] sp'] eqn:Em; cbn [fst snd].
  - intros H. left. exact (jsonify_raises _ _ H).
  - intros H. injection H as <-. right. exact (move_raises _ _ _ _ _ _ _ Em).
Qed.

Lemma grover_route_raises (a : query) (o : AerSimulator.shot) (srv : Server)
    (e : exn) :
  fst (grover a o srv) = Raise e -> e = TypeError \/ e = ValueError.
Proof.
  destruct (args_get "target" a) as [s | ] eqn:Ea.
  - destruct (string_dec s "11") as [-> | Hn].
    + rewrite (grover_target_11 a o srv (or_intror Ea)). cbn [fst].
      intros H. right. exact (jsonify_raises _ _ H).
    + rewrite (grover_raises_on_other_target a s o srv Ea Hn). cbn.
      intros H. left. now injection H as <-.
  - rewrite (grover_target_11 a o srv (or_introl Ea)). cbn [fst].
    intros H. right. exact (jsonify_raises _ _ H).
Qed.

(** X10. The exceptions a request can raise, in any server state: [/status]
    raises only [ValueError] (an int too long to write), [/move] only
    [ValueError] (a parameter that is not a float, or an int too long to
    write) or [OverflowError] (an int field too large for a float),
    [/grover] only [TypeError] or [ValueError]; [/], [/entangle] and [/ghz]
    never raise. *)
Theorem X10_exceptions_by_route
    (float_of_str : string -> option float) (r : request) (srv : Server) (e : exn) :
  fst (handle float_of_str r srv) = Raise e ->
  (path r = Status /\ e = ValueError)
  \/ (path r = Move /\ (e = ValueError \/ e = OverflowError))
  \/ (path r = Grover /\ (e = TypeError \/ e = ValueError)).
Proof.
  unfold handle. destruct (path r) eqn:P.
  - discriminate.
  - intros H. left. split; [reflexivity | exact (status_route_raises _ _ _ H)].
  - destruct (entangle_answers (sim r) srv) as [j ->]. discriminate.
  - destruct (ghz_answers (sim r) srv) as [j ->]. discriminate.
  - intros H. right. left.
    split; [reflexivity | exact (move_route_raises _ _ _ _ H)].
  - intros H. right. right.
    split; [reflexivity | exact (grover_route_raises _ _ _ _ H)].
Qed.

Lemma X10_witness :
  fst (handle float_of_str_sample bad_move sample_server) = Raise ValueError
  /\ ((path bad_move = Status /\ ValueError = ValueError)
      \/ (path bad_move = Move /\ (ValueError = ValueError \/ ValueError = OverflowError))
      \/ (path bad_move = Grover /\ (ValueError = TypeError \/ ValueError = ValueError))).
Proof.
  split; [reflexivity | ].
  apply (X10_exceptions_by_route float_of_str_sample bad_move sample_server
           ValueError).
  reflexivity.
Defined.

(** X11. In every state the program reaches from startup, through requests
    and drift rounds, whatever their parameters and draws: [t] is a
    non-negative int (it counts drift rounds) or a float, [x] is the int [6]
    or a float, and [y] and [z] are each the int [0] or a float. *)
Theorem X11_program_position_shape
    (float_of_str : string -> option float) (randint : nat -> Z) (srv : Server) :
  served float_of_str randint srv ->
  ((exists n, 0 <= n /\ Spacetime4D.t (spacetime srv) = PyInt n)
   \/ exists f, Spacetime4D.t (spacetime srv) = PyFloat f)
  /\ (Spacetime4D.x (spacetime srv) = PyInt 6
      \/ exists f, Spacetime4D.x (spacetime srv) = PyFloat f)
  /\ (Spacetime4D.y (spacetime srv) = PyInt 0
      \/ exists f, Spacetime4D.y (spacetime srv) = PyFloat f)
  /\ (Spacetime4D.z (spacetime srv) = PyInt 0
      \/ exists f, Spacetime4D.z (spacetime srv) = PyFloat f).
Proof. exact (served_shape float_of_str randint srv). Qed.

Lemma drifted_server_served :
  served float_of_str_sample (fun _ => 42) drifted_server.
Proof.
  apply served_drift; [reflexivity | reflexivity | reflexivity | apply served_startup].
Qed.

Lemma X11_witness :
  served float_of_str_sample (fun _ => 42) drifted_server
  /\ ((exists n, 0 <= n /\ Spacetime4D.t (spacetime drifted_server) = PyInt n)
      \/ exists f, Spacetime4D.t (spacetime drifted_server) = PyFloat f)
  /\ (Spacetime4D.x (spacetime drifted_server) = PyInt 6
      \/ exists f, Spacetime4D.x (spacetime drifted_server) = PyFloat f)
  /\ (Spacetime4D.y (spacetime drifted_server) = PyInt 0
      \/ exists f, Spacetime4D.y (spacetime drifted_server) = PyFloat f)
  /\ (Spacetime4D.z (spacetime drifted_server) = PyInt 0
      \/ exists f, Spacetime4D.z (spacetime drifted_server) = PyFloat f).
Proof.
  split; [exact drifted_server_served | ].
  exact (X11_program_position_shape float_of_str_sample (fun _ => 42)
           drifted_server drifted_server_served).
Defined.

Lemma num_json_ok_same_value (a b : num) :
  same_value a b -> num_json_ok b = true -> num_json_ok a = true.
Proof.
  intros [-> | (s & s' & -> & _)]; [trivial | reflexivity].
Qed.

(** X12. In every state the program reaches, a [/move] whose parameters
    parse (or are left out) returns its JSON response as soon as [t] can be
    added to a float: [x] always can, and [x], [y], [z] can always be
    written.  The memory and the values of [y] and [z] are kept. *)
Theorem X12_move_answers_in_program_states
    (float_of_str : string -> option float) (randint : nat -> Z) (srv : Server)
    (a : query) (dt dx : float) :
  served float_of_str randint srv ->
  float_arg float_of_str "dt" a = Ok dt ->
  float_arg float_of_str "dx" a = Ok dx ->
  fits_float (Spacetime4D.t (spacetime srv)) ->
  exists pos srv',
    move float_of_str a srv
    = (Ok (Json (JObj [("new_position", json_of_coord pos)])), srv')
    /\ memory srv' = memory srv
    /\ same_value (Spacetime4D.y (spacetime srv')) (Spacetime4D.y (spacetime srv))
    /\ same_value (Spacetime4D.z (spacetime srv')) (Spacetime4D.z (spacetime srv)).
Proof.
  intros S Pt Px Ft.
  destruct (program_shape_ready _ (served_shape _ _ _ S)) as (Fx & _ & Jy & Jz).
  destruct (fits_float_add _ Ft) as [tf Ht].
  destruct (fits_float_add _ Fx) as [xf Hx].
  destruct (add_zero_total (Spacetime4D.y (spacetime srv))) as (y' & Hy & Sy & _).
  destruct (add_zero_total (Spacetime4D.z (spacetime srv))) as (z' & Hz & Sz & _).
  destruct (mul_c_total (PyFloat (fadd tf dt))) as [ct Hc].
  rewrite (move_parsed float_of_str a dt dx srv Pt Px).
  rewrite (move_with_ok srv dt dx _ _ _ _ ct (Ht dt) (Hx dx) Hy Hz Hc).
  exists (ct, PyFloat (fadd xf dx), y', z').
  exists (mkServer
            (Spacetime4D.mk (PyFloat (fadd tf dt)) (PyFloat (fadd xf dx)) y' z')
            (memory srv)).
  split; [ | cbn; tauto].
  f_equal. apply jsonify_cases.
  cbn [mul] in Hc. rewrite float_of_int_c in Hc. injection Hc as <-.
  cbn [json_of_coord json_ok num_json_ok].
  now rewrite (num_json_ok_same_value _ _ Sy Jy), (num_json_ok_same_value _ _ Sz Jz).
Qed.

Lemma X12_witness :
  exists pos srv',
    move float_of_str_sample [("dt", "0.1"); ("dx", "1")] drifted_server
    = (Ok (Json (JObj [("new_position", json_of_coord pos)])), srv')
    /\ memory srv' = memory drifted_server
    /\ same_value (Spacetime4D.y (spacetime srv'))
         (Spacetime4D.y (spacetime drifted_server))
    /\ same_value (Spacetime4D.z (spacetime srv'))
         (Spacetime4D.z (spacetime drifted_server)).
Proof.
  apply (X12_move_answers_in_program_states float_of_str_sample (fun _ => 42)
           drifted_server [("dt", "0.1"); ("dx", "1")] tenth one).
  - exact drifted_server_served.
  - reflexivity.
  - reflexivity.
  - exists one. reflexivity.
Defined.

(** X13. [/grover] with the target ["11"], given or left out, answers in
    any server state whose memory holds, at the all-zero coordinate, nothing
    or an int that can be written, and for every measurement outcome:
    [found_item] is what the memory holds there ([null] when it holds
    nothing), [at_binary_index] is the two measured bits, and the server
    state is unchanged. *)
Theorem X13_grover_target_11_answers
    (a : query) (o : AerSimulator.shot) (srv : Server) :
  args_get "target" a = None \/ args_get "target" a = Some "11" ->
  (forall v, HyperMemory.dict_get (int_key 0 0 0 0) (memory srv) = Some v ->
             int_str_ok v = true) ->
  grover a o srv
  = (Ok (Json (JObj [("found_item",
                      match HyperMemory.dict_get (int_key 0 0 0 0) (memory srv) with
                      | Some v => JNum (PyInt v)
                      | None => JNull
                      end);
                     ("at_binary_index",
                      JStr (String (AerSimulator.bit_char (o 1%nat))
                              (String (AerSimulator.bit_char (o 0%nat)) "")));
                     ("quantum_speedup", JStr "ACHIEVED")])),
     srv).
Proof.
  intros Ha Hv. rewrite (grover_target_11 a o srv Ha).
  unfold jsonify. rewrite json_ok_grover.
  change origin with (int_key 0 0 0 0).
  destruct (HyperMemory.dict_get (int_key 0 0 0 0) (memory srv)) as [v | ];
    cbn [json_of_found json_ok num_json_ok];
    [rewrite (Hv v eq_refl) | ]; reflexivity.
Qed.

Lemma X13_witness :
  grover [("target", "11")] (fun _ => true) sample_server
  = (Ok (Json (JObj [("found_item", JNum (PyInt 42));
                     ("at_binary_index", JStr "11");
                     ("quantum_speedup", JStr "ACHIEVED")])),
     sample_server).
Proof.
  apply (X13_grover_target_11_answers [("target", "11")] (fun _ => true)
           sample_server).
  - right. reflexivity.
  - intros v H. injection H as <-. apply int_str_ok_small. reflexivity.
Defined.

(** X14. The whole lookup table of the memory, in every state reached from
    startup through requests: an int coordinate is found exactly when it is
    [(0, b, 0, 0)] with [b] one of [0], [1], [3], [6], and then gives the
    draw made for it; every other int coordinate, [(0, 2, 0, 0)] among them,
    gives [None]. *)
Theorem X14_memory_lookup_table
    (float_of_str : string -> option float) (randint : nat -> Z) (srv : Server)
    (a b c d : Z) :
  served float_of_str randint srv ->
  fst (HyperMemory.retrieve (int_key a b c d) (memory srv))
  = Ok match a, b, c, d with
       | 0, 0, 0, 0 => Some (randint 0%nat)
       | 0, 1, 0, 0 => Some (randint 1%nat)
       | 0, 3, 0, 0 => Some (randint 2%nat)
       | 0, 6, 0, 0 => Some (randint 3%nat)
       | _, _, _, _ => None
       end.
Proof.
  intros S. rewrite (served_memory _ _ _ S), startup_state.
  cbn [HyperMemory.retrieve bind get ret fst snd memory]. f_equal.
  destruct a as [ | pa | pa]; try reflexivity;
    destruct c as [ | pc | pc];
    destruct d as [ | pd | pd];
    destruct b as [ | [[pb | pb | ] | [pb | pb | ] | ] | pb]; try reflexivity;
    try (destruct pb; reflexivity).
Qed.

Lemma X14_witness :
  served float_of_str_sample (fun _ => 42) moved_server
  /\ fst (HyperMemory.retrieve (int_key 0 2 0 0) (memory moved_server)) = Ok None.
Proof.
  assert (S : served float_of_str_sample (fun _ => 42) moved_server)
    by (apply served_request; apply served_startup).
  split; [exact S | ].
  exact (X14_memory_lookup_table float_of_str_sample (fun _ => 42) moved_server
           0 2 0 0 S).
Defined.

(** X15. A round of the background drift, with any three float draws, never
    writes the memory and leaves a position that no later [move] can bring
    to the float negative zero (a reachable one). *)
Theorem X15_drift_round_keeps_memory (r1 r2 r3 : float) (srv : Server) :
  valid_binary prec emax r1 = true ->
  valid_binary prec emax r2 = true ->
  valid_binary prec emax r3 = true ->
  Spacetime4D.reachable (spacetime srv) ->
  memory (snd (drift_round r1 r2 r3 srv)) = memory srv
  /\ Spacetime4D.reachable (spacetime (snd (drift_round r1 r2 r3 srv))).
Proof. exact (drift_round_state r1 r2 r3 srv). Qed.

Lemma X15_witness :
  memory (snd (drift_round tenth nzero one sample_server)) = memory sample_server
  /\ Spacetime4D.reachable
       (spacetime (snd (drift_round tenth nzero one sample_server))).
Proof.
  apply (X15_drift_round_keeps_memory tenth nzero one sample_server);
    try reflexivity.
  apply startup_reachable.
Defined.

(** X16. On a position whose fields are ints, as during the seeding loop,
    two [move] calls with int deltas leave the same position and return the
    same tuple as one call with the summed deltas: there [move] is additive
    exactly. *)
Theorem X16_int_moves_add_up (t0 x0 y0 z0 a b c d a' b' c' d' : Z) :
  (Spacetime4D.move (PyInt a) (PyInt b) (PyInt c) (PyInt d) ;;;
   Spacetime4D.move (PyInt a') (PyInt b') (PyInt c') (PyInt d'))
    (Spacetime4D.mk (PyInt t0) (PyInt x0) (PyInt y0) (PyInt z0))
  = Spacetime4D.move (PyInt (a + a')) (PyInt (b + b')) (PyInt (c + c'))
      (PyInt (d + d'))
      (Spacetime4D.mk (PyInt t0) (PyInt x0) (PyInt y0) (PyInt z0)).
Proof. exact (move_int_additive t0 x0 y0 z0 a b c d a' b' c' d'). Qed.

(** ** The circuits for every size *)

Section Circuits.

Import QuantumCircuit AerSimulator.
Local Open Scope nat_scope.
Local Open Scope list_scope.

Lemma appended_nil qc : appended qc [] = qc.
Proof. destruct qc. unfold appended. cbn. now rewrite app_nil_r. Qed.

Lemma appended_app qc l1 l2 : appended (appended qc l1) l2 = appended qc (l1 ++ l2).
Proof. unfold appended. cbn. now rewrite app_assoc. Qed.

Lemma append_ok (ins : instruction) (qubits : list nat) (qc : circuit) :
  forallb (fun q => (q <? num_qubits qc)%nat) qubits = true ->
  distinct qubits = true ->
  append ins qubits qc = (Ok tt, appended qc [ins]).
Proof.
  intros H1 H2. unfold append, bind, get, put. now rewrite H1, H2.
Qed.

Lemma for_each_h (k : nat) : forall (a : nat) (qc : circuit),
  (a + k <= num_qubits qc)%nat ->
  for_each (seq a k) h qc = (Ok tt, appended qc (map H (seq a k))).
Proof.
  induction k as [ | k IH]; intros a qc Hq; cbn [seq for_each map].
  - unfold ret. now rewrite appended_nil.
  - unfold bind at 1. unfold h at 1.
    rewrite append_ok.
    + rewrite IH by (unfold appended; cbn [num_qubits]; lia).
      now rewrite appended_app.
    + cbn. rewrite andb_true_r. apply Nat.ltb_lt. lia.
    + reflexivity.
Qed.

Lemma grover_search_other_n (n : nat) (target : string) (o : shot) :
  target <> "11"%string -> QuantumCore.grover_search n target o = Raise TypeError.
Proof.
  intros Ht. apply String.eqb_neq in Ht.
  unfold QuantumCore.grover_search, QuantumCore.with_circuit.
  rewrite Ht. unfold bind at 1. unfold range.
  rewrite for_each_h by (cbn; lia).
  reflexivity.
Qed.

Lemma grover_search_11_small (n : nat) (o : shot) :
  (n < 2)%nat -> QuantumCore.grover_search n "11" o = Raise CircuitError.
Proof.
  intros H. destruct n as [ | [ | n]]; [reflexivity | reflexivity | lia].
Qed.

End Circuits.

(** X18. Whatever the number of qubits, [grover_search] with a target other
    than ["11"] raises [TypeError]: the superposition loop succeeds and the
    oracle line then calls [qc.id()] without a qubit. *)
Theorem X18_grover_search_other_target_any_size
    (n : nat) (target : string) (o : AerSimulator.shot) :
  target <> "11" ->
  QuantumCore.grover_search n target o = Raise TypeError.
Proof. exact (grover_search_other_n n target o). Qed.

Lemma X18_witness :
  QuantumCore.grover_search 5 "10110" (fun _ => true) = Raise TypeError.
Proof.
  apply X18_grover_search_other_target_any_size. discriminate.
Defined.

(** X19. With fewer than two qubits, [grover_search] for the target ["11"]
    raises [CircuitError]: its oracle [cz(0, 1)] names a qubit the circuit
    does not have. *)
Theorem X19_grover_search_needs_two_qubits (n : nat) (o : AerSimulator.shot) :
  (n < 2)%nat ->
  QuantumCore.grover_search n "11" o = Raise CircuitError.
Proof. exact (grover_search_11_small n o). Qed.

Lemma X19_witness :
  QuantumCore.grover_search 1 "11" (fun _ => true) = Raise CircuitError.
Proof.
  apply X19_grover_search_needs_two_qubits. lia.
Defined.


(** ** The circuits at other small sizes *)

Lemma length_string_of_list_ascii (l : list ascii) :
  String.length (string_of_list_ascii l) = List.length l.
Proof. induction l as [ | ch l IH]; cbn; [reflexivity | now rewrite IH]. Qed.

Lemma is_binary_bits (l : list bool) :
  is_binary (string_of_list_ascii (map AerSimulator.bit_char l)) = true.
Proof.
  unfold is_binary. rewrite list_ascii_of_string_of_list_ascii.
  apply forallb_forall. intros ch H. apply in_map_iff in H.
  destruct H as ([ | ] & <- & _); reflexivity.
Qed.

(** X17. For every size [n] from 1 to 4, the widths at which the simulator
    is modelled, and every measurement outcome, [ghz_state(n)] returns
    counts with a single key of [2n + 1] characters: the [n] measured bits
    (qubit [n-1] first), a space, and [n] zeros, the bits of the register
    the circuit allocates and never measures into. *)
Theorem X17_ghz_state_key_up_to_four (n : nat) (o : AerSimulator.shot) :
  (1 <= n <= 4)%nat ->
  exists k,
    QuantumCore.ghz_state n o = Ok [(k, 1%nat)]
    /\ k = string_of_list_ascii
             (map AerSimulator.bit_char (rev (map o (seq 0 n)))
              ++ " "%char :: repeat "0"%char n)%list
    /\ String.length k = (2 * n + 1)%nat
    /\ is_binary k = false.
Proof.
  intros Hn. eexists. split; [ | split; [reflexivity | split]].
  - destruct n as [ | [ | [ | [ | [ | n]]]]]; try lia; reflexivity.
  - rewrite length_string_of_list_ascii, length_app. cbn [List.length].
    rewrite length_map, length_rev, length_map, length_seq, repeat_length. lia.
  - unfold is_binary. rewrite list_ascii_of_string_of_list_ascii, forallb_app.
    cbn [forallb]. cbn [Ascii.eqb Bool.eqb orb andb].
    apply andb_false_r.
Qed.

Lemma X17_witness :
  exists k,
    QuantumCore.ghz_state 3 (fun q => Nat.eqb q 0) = Ok [(k, 1%nat)]
    /\ k = string_of_list_ascii
             (map AerSimulator.bit_char
                (rev (map (fun q => Nat.eqb q 0) (seq 0 3)))
              ++ " "%char :: repeat "0"%char 3)%list
    /\ String.length k = (2 * 3 + 1)%nat
    /\ is_binary k = false.
Proof.
  apply (X17_ghz_state_key_up_to_four 3 (fun q => Nat.eqb q 0)). lia.
Defined.

(** X20. For every size [n] from 2 to 4, the widths at which the simulator
    is modelled, and every measurement outcome, [grover_search(n, '11')]
    returns a string of exactly [n] characters, each ['0'] or ['1']: the
    measured bits, qubit [n-1] first. *)
Theorem X20_grover_search_key_up_to_four (n : nat) (o : AerSimulator.shot) :
  (2 <= n <= 4)%nat ->
  exists k,
    QuantumCore.grover_search n "11" o = Ok k
    /\ k = string_of_list_ascii (map AerSimulator.bit_char (rev (map o (seq 0 n))))
    /\ String.length k = n
    /\ is_binary k = true.
Proof.
  intros Hn. eexists. split; [ | split; [reflexivity | split]].
  - destruct n as [ | [ | [ | [ | [ | n]]]]]; try lia; reflexivity.
  - now rewrite length_string_of_list_ascii, length_map, length_rev, length_map,
      length_seq.
  - apply is_binary_bits.
Qed.

Lemma X20_witness :
  exists k,
    QuantumCore.grover_search 3 "11" (fun q => Nat.eqb q 1) = Ok k
    /\ k = string_of_list_ascii
             (map AerSimulator.bit_char (rev (map (fun q => Nat.eqb q 1) (seq 0 3))))
    /\ String.length k = 3%nat
    /\ is_binary k = true.
Proof.
  apply (X20_grover_search_key_up_to_four 3 (fun q => Nat.eqb q 1)). lia.
Defined.

(** ** Ints too long to write *)

Lemma int_str_ok_long (n : Z) : 10 ^ max_str_digits <= Z.abs n -> int_str_ok n = false.
Proof. intros H. unfold int_str_ok. apply Z.ltb_ge. exact H. Qed.

Lemma long_int_bound : 0 < 10 ^ max_str_digits <= long_int.
Proof.
  unfold long_int, max_str_digits. split.
  - apply Z.pow_pos_nonneg; lia.
  - apply Z.pow_le_mono_r; lia.
Qed.

Lemma long_int_not_ok : int_str_ok long_int = false.
Proof.
  apply int_str_ok_long. pose proof long_int_bound as B.
  generalize dependent long_int. intros n. generalize (10 ^ max_str_digits).
  intros m. lia.
Qed.

Lemma long_time_not_ok : int_str_ok (299792458 * long_int) = false.
Proof.
  apply int_str_ok_long. pose proof long_int_bound as B.
  generalize dependent long_int. intros n. generalize (10 ^ max_str_digits).
  intros m. lia.
Qed.

Lemma long_y_reachable : Spacetime4D.reachable (spacetime long_y_server).
Proof.
  change (Spacetime4D.reachable
            (snd (Spacetime4D.move (PyInt 0) (PyInt 6) (PyInt long_int) (PyInt 0)
                    Spacetime4D.init))).
  apply Spacetime4D.reach_move; try exact I. apply Spacetime4D.reach_init.
Qed.

(** X21. [/status] raises [ValueError] when [t] is an int whose product
    with [c] has more than 4300 digits: [jsonify] cannot write it.  The
    memory and [t] are as before the request. *)
Theorem X21_status_raises_on_long_time (srv : Server) (clock : string) (n : Z) :
  Spacetime4D.t (spacetime srv) = PyInt n ->
  int_str_ok (299792458 * n) = false ->
  exists srv',
    status clock srv = (Raise ValueError, srv')
    /\ memory srv' = memory srv
    /\ Spacetime4D.t (spacetime srv') = PyInt n.
Proof.
  intros Ht Hn.
  assert (At : add (Spacetime4D.t (spacetime srv)) (PyInt 0) = Ok (PyInt n))
    by (rewrite Ht; apply add_zero; reflexivity).
  destruct (add_zero_total (Spacetime4D.x (spacetime srv))) as (x' & Hx & _).
  destruct (add_zero_total (Spacetime4D.y (spacetime srv))) as (y' & Hy & _).
  destruct (add_zero_total (Spacetime4D.z (spacetime srv))) as (z' & Hz & _).
  exists (mkServer (Spacetime4D.mk (PyInt n) x' y' z') (memory srv)).
  rewrite (status_ok srv clock _ _ _ _ (PyInt (299792458 * n)) At Hx Hy Hz eq_refl).
  split; [ | split; reflexivity].
  f_equal. apply jsonify_cases.
  pose proof (json_ok_status clock (PyInt (299792458 * n), x', y', z')) as E.
  cbn [json_of_coord] in E. rewrite E.
  cbn [json_ok num_json_ok]. now rewrite Hn.
Qed.

Lemma X21_witness :
  exists srv',
    status "noon" long_t_server = (Raise ValueError, srv')
    /\ memory srv' = memory long_t_server
    /\ Spacetime4D.t (spacetime srv') = PyInt long_int.
Proof.
  apply (X21_status_raises_on_long_time long_t_server "noon" long_int).
  - reflexivity.
  - exact long_time_not_ok.
Defined.

(** X22. [/move] answers [ValueError] after it has moved: when [y] or [z]
    is an int of more than 4300 digits, the sums for [t] and [x] are stored
    as for any [/move] and it is [jsonify] that raises, so the request fails
    and the position has changed all the same. *)
Theorem X22_move_raises_after_moving
    (float_of_str : string -> option float) (srv : Server) (a : query)
    (dt dx : float) :
  float_arg float_of_str "dt" a = Ok dt ->
  float_arg float_of_str "dx" a = Ok dx ->
  Spacetime4D.reachable (spacetime srv) ->
  fits_float (Spacetime4D.t (spacetime srv)) ->
  fits_float (Spacetime4D.x (spacetime srv)) ->
  num_json_ok (Spacetime4D.y (spacetime srv)) = false
  \/ num_json_ok (Spacetime4D.z (spacetime srv)) = false ->
  exists t' x',
    add (Spacetime4D.t (spacetime srv)) (PyFloat dt) = Ok t'
    /\ add (Spacetime4D.x (spacetime srv)) (PyFloat dx) = Ok x'
    /\ move float_of_str a srv
       = (Raise ValueError,
          mkServer
            (Spacetime4D.mk t' x'
               (Spacetime4D.y (spacetime srv)) (Spacetime4D.z (spacetime srv)))
            (memory srv)).
Proof.
  intros Pt Px R Ft Fx J.
  destruct (reachable_good _ R) as (_ & _ & Gy & Gz).
  apply good_not_nzero in Gy, Gz.
  destruct (fits_float_add _ Ft) as [tf Ht].
  destruct (fits_float_add _ Fx) as [xf Hx].
  destruct (mul_c_total (PyFloat (fadd tf dt))) as [ct Hc].
  exists (PyFloat (fadd tf dt)), (PyFloat (fadd xf dx)).
  split; [apply Ht | split; [apply Hx | ]].
  rewrite (move_parsed float_of_str a dt dx srv Pt Px).
  rewrite (move_with_ok srv dt dx _ _ _ _ ct (Ht dt) (Hx dx)
             (add_zero _ Gy) (add_zero _ Gz) Hc).
  f_equal. apply jsonify_cases.
  cbn [json_ok]. destruct J as [-> | ->]; cbn [andb];
    now rewrite ?andb_false_r.
Qed.

Lemma X22_witness :
  exists t' x',
    add (Spacetime4D.t (spacetime long_y_server)) (PyFloat one) = Ok t'
    /\ add (Spacetime4D.x (spacetime long_y_server)) (PyFloat tenth) = Ok x'
    /\ move float_of_str_sample [("dt", "1"); ("dx", "0.1")] long_y_server
       = (Raise ValueError,
          mkServer
            (Spacetime4D.mk t' x'
               (Spacetime4D.y (spacetime long_y_server))
               (Spacetime4D.z (spacetime long_y_server)))
            (memory long_y_server)).
Proof.
  apply (X22_move_raises_after_moving float_of_str_sample long_y_server
           [("dt", "1"); ("dx", "0.1")] one tenth).
  - reflexivity.
  - reflexivity.
  - exact long_y_reachable.
  - exists pzero. reflexivity.
  - eexists. reflexivity.
  - left. exact long_int_not_ok.
Defined.

(** What a [move] that returns has stored. *)
Lemma move_returns (s s' : Spacetime4D.state) (dt dx dy dz : num)
    (pos : Spacetime4D.coord) :
  Spacetime4D.move dt dx dy dz s = (Ok pos, s') ->
  add (Spacetime4D.t s) dt = Ok (Spacetime4D.t s')
  /\ add (Spacetime4D.x s) dx = Ok (Spacetime4D.x s')
  /\ add (Spacetime4D.y s) dy = Ok (Spacetime4D.y s')
  /\ add (Spacetime4D.z s) dz = Ok (Spacetime4D.z s').
Proof.
  unfold Spacetime4D.move, Spacetime4D.iadd, bind, get, put, lift, ret.
  cbn -[add mul Spacetime4D.c].
  destruct (add (Spacetime4D.t s) dt) as [t' | e1];
    cbn -[add mul Spacetime4D.c]; [ | discriminate].
  destruct (add (Spacetime4D.x s) dx) as [x' | e1];
    cbn -[add mul Spacetime4D.c]; [ | discriminate].
  destruct (add (Spacetime4D.y s) dy) as [y' | e1];
    cbn -[add mul Spacetime4D.c]; [ | discriminate].
  destruct (add (Spacetime4D.z s) dz) as [z' | e1];
    cbn -[add mul Spacetime4D.c]; [ | discriminate].
  destruct (mul (PyInt Spacetime4D.c) t'); cbn; [ | discriminate].
  intros H. injection H as _ <-. cbn. tauto.
Qed.

(** ** The drift thread as a counter *)

Lemma running_served (float_of_str : string -> option float) (randint : nat -> Z)
    (b : bool) (srv : Server) :
  running float_of_str randint b srv -> served float_of_str randint srv.
Proof.
  induction 1 as [ | b r srv _ IH | r1 r2 r3 srv V1 V2 V3 _ IH].
  - apply served_startup.
  - now apply served_request.
  - now apply served_drift.
Qed.

Lemma int_str_ok_smaller (n m : Z) :
  Z.abs n <= Z.abs m -> int_str_ok m = true -> int_str_ok n = true.
Proof. unfold int_str_ok. rewrite !Z.ltb_lt. lia. Qed.

(** A drift round on the program's shape whose new count can be printed
    returns, and adds one to an int [t]. *)
Lemma drift_round_counts (r1 r2 r3 : float) (srv : Server) (n : Z) :
  program_shape (spacetime srv) ->
  Spacetime4D.t (spacetime srv) = PyInt n ->
  int_str_ok (299792458 * (n + 1)) = true ->
  fst (drift_round r1 r2 r3 srv) = Ok tt
  /\ Spacetime4D.t (spacetime (snd (drift_round r1 r2 r3 srv))) = PyInt (n + 1).
Proof.
  intros Sh Ht Hn.
  destruct (program_shape_drift _ r1 r2 r3 Sh) as (pos & sp1 & E).
  destruct (move_returns _ _ _ _ _ _ _ E) as (At & Ax & Ay & Az).
  rewrite Ht in At. cbn [add] in At. injection At as At.
  assert (Fx : exists f, Spacetime4D.x sp1 = PyFloat f).
  { destruct Sh as (_ & [Sx | [f Sx]] & _); rewrite Sx in Ax; cbn [add] in Ax.
    - destruct (float_of_int 6); [ | discriminate]. injection Ax as <-. eauto.
    - injection Ax as <-. eauto. }
  assert (Fy : exists f, Spacetime4D.y sp1 = PyFloat f).
  { destruct Sh as (_ & _ & [Sy | [f Sy]] & _); rewrite Sy in Ay; cbn [add] in Ay.
    - destruct (float_of_int 0); [ | discriminate]. injection Ay as <-. eauto.
    - injection Ay as <-. eauto. }
  assert (Fz : exists f, Spacetime4D.z sp1 = PyFloat f).
  { destruct Sh as (_ & _ & _ & [Sz | [f Sz]]); rewrite Sz in Az; cbn [add] in Az.
    - destruct (float_of_int 0); [ | discriminate]. injection Az as <-. eauto.
    - injection Az as <-. eauto. }
  destruct Fx as [fx Fx], Fy as [fy Fy], Fz as [fz Fz].
  assert (A0 : add (Spacetime4D.t sp1) (PyInt 0) = Ok (PyInt (n + 1)))
    by (rewrite <- At; apply add_zero; reflexivity).
  destruct (add_zero_total (Spacetime4D.x sp1)) as (x' & Hx & Sx & _).
  destruct (add_zero_total (Spacetime4D.y sp1)) as (y' & Hy & Sy & _).
  destruct (add_zero_total (Spacetime4D.z sp1)) as (z' & Hz & Sz & _).
  unfold drift_round, bind. rewrite on_spacetime_run, E. cbn [fst snd].
  rewrite on_spacetime_run. cbn [spacetime memory].
  rewrite (move_ok sp1 _ _ _ _ _ _ _ _ (PyInt (299792458 * (n + 1))) A0 Hx Hy Hz
             eq_refl).
  cbn [fst snd lift spacetime Spacetime4D.t]. split; [ | reflexivity].
  unfold print_coord. rewrite json_ok_coord. cbn [num_json_ok]. rewrite Hn.
  rewrite (num_json_ok_same_value x' _ Sx) by (now rewrite Fx).
  rewrite (num_json_ok_same_value y' _ Sy) by (now rewrite Fy).
  rewrite (num_json_ok_same_value z' _ Sz) by (now rewrite Fz).
  reflexivity.
Qed.

(** X23. The drift thread alone brings [t] to any count it can print: for
    every [n] such that [c * n] has at most 4300 digits there is a state the
    program reaches with the drift thread still alive, after [n] drift
    rounds, whose [t] is the int [n]. *)
Theorem X23_drift_counts_rounds
    (float_of_str : string -> option float) (randint : nat -> Z) (n : nat) :
  int_str_ok (299792458 * Z.of_nat n) = true ->
  exists srv,
    running float_of_str randint true srv
    /\ Spacetime4D.t (spacetime srv) = PyInt (Z.of_nat n).
Proof.
  induction n as [ | n IH]; intros Hn.
  - exists (snd (startup randint)). split; [apply running_startup | reflexivity].
  - assert (Hn' : int_str_ok (299792458 * (Z.of_nat n + 1)) = true)
      by (replace (Z.of_nat n + 1) with (Z.of_nat (S n)) by lia; exact Hn).
    assert (Hle : Z.abs (299792458 * Z.of_nat n)
                  <= Z.abs (299792458 * (Z.of_nat n + 1))) by lia.
    destruct IH as (srv & R & Ht);
      [exact (int_str_ok_smaller _ _ Hle Hn') | ].
    pose proof (served_shape _ _ _ (running_served _ _ _ _ R)) as Sh.
    destruct (drift_round_counts one one one srv _ Sh Ht Hn') as [E T].
    exists (snd (drift_round one one one srv)). split.
    + pose proof (running_drift float_of_str randint one one one srv
                    eq_refl eq_refl eq_refl R) as R'.
      now rewrite E in R'.
    + rewrite T. f_equal. lia.
Qed.

Lemma X23_witness :
  exists srv,
    running float_of_str_sample (fun _ => 42) true srv
    /\ Spacetime4D.t (spacetime srv) = PyInt (Z.of_nat 3).
Proof.
  apply (X23_drift_counts_rounds float_of_str_sample (fun _ => 42) 3).
  apply int_str_ok_small. reflexivity.
Defined.
